(** * Network device discovery and inventory generation

    A shallow embedding of [scripts/discover_devices.py] (the discovery
    pipeline: range expansion, the two probe phases, the octet classifier,
    the inventory builder and [main]) and of the two static generators
    [scripts/generate_complete_inventory.py] and
    [scripts/generate_inventory.py], with the properties the specification
    states about them and further properties read off the code.

    Conventions.
    - Python [str] values are [string]s of ASCII characters.
    - Python [int] values are [Z].
    - A Python [dict] is an association list in insertion order with
      pairwise distinct keys; [d[k] = v] replaces in place or appends.
    - A raised exception is the [Raise] outcome of [result].
    - Output ([print], probes, the written file) is a trace of [event]s. *)

From Stdlib Require Import ZArith List String Ascii Bool Lia.
From Stdlib Require Import Permutation Sorted DecimalString.
Import ListNotations.
Local Open Scope string_scope.
Local Open Scope Z_scope.

Set Implicit Arguments.
Set Warnings "-register-all".

(* ===================================================================== *)
(** * Python text primitives                                              *)
(* ===================================================================== *)

Module PyText.

(** [str(n)] for an [int]. *)
Definition str_int (z : Z) : string := NilZero.string_of_int (Z.to_int z).

(** [s.split(c)] for a one-character separator. *)
Fixpoint split (c : ascii) (s : string) : list string :=
  match s with
  | EmptyString => [EmptyString]
  | String x t =>
      if Ascii.eqb x c then EmptyString :: split c t
      else match split c t with
           | h :: r => String x h :: r
           | [] => [String x EmptyString]
           end
  end.

(** [c.join(parts)]. *)
Fixpoint join (c : string) (parts : list string) : string :=
  match parts with
  | [] => EmptyString
  | [p] => p
  | p :: rest => p ++ c ++ join c rest
  end.

(** [s.replace(a, b)] for one-character [a] and [b]. *)
Fixpoint replace (a b : ascii) (s : string) : string :=
  match s with
  | EmptyString => EmptyString
  | String x t => String (if Ascii.eqb x a then b else x) (replace a b t)
  end.

(** [l[-1]] on a list of strings; [split] never returns the empty list. *)
Definition last_item (l : list string) : string := last l EmptyString.

(** Whitespace that [int()] strips: TAB, LF, VT, FF, CR, FS, GS, RS, US and
    the space. *)
Definition is_space (c : ascii) : bool :=
  let n := N_of_ascii c in
  (((9 <=? n) && (n <=? 13)) || ((28 <=? n) && (n <=? 32)))%N.

Definition is_digit (c : ascii) : bool :=
  let n := N_of_ascii c in ((48 <=? n) && (n <=? 57))%N.

Definition digit_value (c : ascii) : Z := Z.of_N (N_of_ascii c) - 48.

Fixpoint lstrip (l : list ascii) : list ascii :=
  match l with
  | c :: t => if is_space c then lstrip t else l
  | [] => []
  end.

Definition strip (l : list ascii) : list ascii :=
  rev (lstrip (rev (lstrip l))).

(** The digits of a decimal literal: at least one digit, single underscores
    allowed between digits only. [after_digit] tells whether the previous
    character was a digit. *)
Fixpoint digits (acc : Z) (after_digit : bool) (l : list ascii) : option Z :=
  match l with
  | [] => if after_digit then Some acc else None
  | c :: t =>
      if is_digit c then digits (10 * acc + digit_value c) true t
      else if Ascii.eqb c "_"%char && after_digit then digits acc false t
      else None
  end.

(** [int(s)] in base ten on ASCII text; [None] stands for [ValueError].
    (The interpreter's limit on the number of digits is not modelled.) *)
Definition int (s : string) : option Z :=
  match strip (list_ascii_of_string s) with
  | "+"%char :: r => digits 0 false r
  | "-"%char :: r => option_map Z.opp (digits 0 false r)
  | r => digits 0 false r
  end.

End PyText.

(* ===================================================================== *)
(** * Addresses                                                           *)
(* ===================================================================== *)

(** [ipaddress.IPv4Address]: the object holds the address as an integer
    [_ip]; comparison and sorting go through that integer. *)
Record IPv4Address : Type := IPv4 { ip_int : Z }.

Definition valid_ipv4 (a : IPv4Address) : Prop := 0 <= ip_int a < 2 ^ 32.

(** Byte [k] of the address, counted from the least significant one. *)
Definition octet (k : Z) (a : IPv4Address) : Z :=
  Z.land (Z.shiftr (ip_int a) (8 * k)) 255.

(** The protocol behind [str(x)]: the builder and the classifier use their
    argument only through it, so they accept address objects and plain text
    alike. *)
Class PyStr (A : Type) : Type := py_str : A -> string.

(** [IPv4Address.__str__]: the four bytes, most significant first, in decimal
    and joined by dots. *)
#[export] Instance IPv4Address_str : PyStr IPv4Address :=
  fun a => PyText.join "." (map (fun k => PyText.str_int (octet k a)) [3; 2; 1; 0]).

#[export] Instance string_str : PyStr string := fun s => s.

(* ===================================================================== *)
(** * DeviceClassifier                                                    *)
(* ===================================================================== *)

(** [classify_device_type(ip)]; [None] is the [ValueError] of [int()]. *)
Definition classify_device_type {A} `{PyStr A} (ip : A) : option (string * string) :=
  match PyText.int (PyText.last_item (PyText.split "." (py_str ip))) with
  | None => None
  | Some last_octet =>
      Some (if (1 <=? last_octet) && (last_octet <=? 10) then ("cisco_routers", "ios")
            else if (11 <=? last_octet) && (last_octet <=? 30) then ("cisco_switches", "ios")
            else if (31 <=? last_octet) && (last_octet <=? 40) then ("arista_switches", "eos")
            else if (41 <=? last_octet) && (last_octet <=? 50) then ("juniper_routers", "junos")
            else if (51 <=? last_octet) && (last_octet <=? 60) then ("palo_alto_firewalls", "panos")
            else if (61 <=? last_octet) && (last_octet <=? 70) then ("fortinet_firewalls", "fortios")
            else ("unknown_devices", "unknown"))
  end.

(* ===================================================================== *)
(** * Outcomes, dictionaries and values                                   *)
(* ===================================================================== *)

(** The exceptions the modelled code can raise. *)
Inductive exn : Type := ValueError | KeyError | TypeError.

Inductive result (A : Type) : Type :=
| Ok (a : A)
| Raise (e : exn).
Arguments Ok {A} a.
Arguments Raise {A} e.

Definition bind {A B} (r : result A) (k : A -> result B) : result B :=
  match r with
  | Ok a => k a
  | Raise e => Raise e
  end.

Declare Scope result_scope.
Delimit Scope result_scope with result.
Notation "x <- c ;; k" := (bind c (fun x => k))
  (at level 61, c at next level, right associativity) : result_scope.

Definition of_option {A} (e : exn) (o : option A) : result A :=
  match o with
  | Some a => Ok a
  | None => Raise e
  end.

Module Dict.

Section Ops.
Variable V : Type.

Definition t : Type := list (string * V).

Fixpoint get (k : string) (d : t) : option V :=
  match d with
  | [] => None
  | (k', v) :: rest => if String.eqb k' k then Some v else get k rest
  end.

(** [d[k] = v]: an existing key keeps its position, a new key goes last. *)
Fixpoint set (k : string) (v : V) (d : t) : t :=
  match d with
  | [] => [(k, v)]
  | (k', v') :: rest =>
      if String.eqb k' k then (k', v) :: rest else (k', v') :: set k v rest
  end.

(** [d.update(e)]. *)
Definition update (d e : t) : t :=
  fold_left (fun acc kv => set (fst kv) (snd kv) acc) e d.

Definition keys (d : t) : list string := map fst d.
End Ops.

End Dict.

(** The values that occur in an inventory document. *)
Inductive pyval : Type :=
| PStr (s : string)
| PBool (b : bool)
| PInt (z : Z)
| PDict (d : list (string * pyval)).

(** [root[p1]...[pn][k] = v]: each subscript on the way raises [KeyError]
  when the key is missing and [TypeError] when the value is no mapping. *)
Fixpoint setitem_at (path : list string) (k : string) (v : pyval) (root : pyval)
: result pyval :=
match root with
| PDict d =>
    match path with
    | [] => Ok (PDict (Dict.set k v d))
    | p :: rest =>
        match Dict.get p d with
        | Some child =>
            (child' <- setitem_at rest k v child ;;
             Ok (PDict (Dict.set p child' d)))%result
        | None => Raise KeyError
        end
    end
| _ => Raise TypeError
end.

(** [root[p1]...[pn]]. *)
Fixpoint getitem_at (path : list string) (root : pyval) : result pyval :=
match path with
| [] => Ok root
| p :: rest =>
    match root with
    | PDict d =>
        match Dict.get p d with
        | Some child => getitem_at rest child
        | None => Raise KeyError
        end
    | _ => Raise TypeError
    end
end.

(* ===================================================================== *)
(** * InventoryBuilder                                                    *)
(* ===================================================================== *)

Inductive output_format : Type := yaml | json.

(** The literal the builder starts from. *)
Definition empty_inventory : pyval :=
PDict [("all", PDict [("children", PDict [
  ("cisco_devices", PDict [("children", PDict [
      ("cisco_routers", PDict [("hosts", PDict [])]);
      ("cisco_switches", PDict [("hosts", PDict [])])])]);
  ("palo_alto_devices", PDict [("children", PDict [
      ("palo_alto_firewalls", PDict [("hosts", PDict [])])])]);
  ("fortinet_devices", PDict [("children", PDict [
      ("fortinet_firewalls", PDict [("hosts", PDict [])])])]);
  ("juniper_devices", PDict [("children", PDict [
      ("juniper_routers", PDict [("hosts", PDict [])])])]);
  ("arista_devices", PDict [("children", PDict [
      ("arista_switches", PDict [("hosts", PDict [])])])]);
  ("unknown_devices", PDict [("hosts", PDict [])])])])].

Section Builder.
Context {A : Type} `{PyStr A}.

(** [f"device-{str(ip).replace('.', '-')}"] *)
Definition hostname (ip : A) : string :=
  "device-" ++ PyText.replace "."%char "-"%char (py_str ip).

(** The connection parameters added for an OS tag. *)
Definition os_parameters (os_type : string) : list (string * pyval) :=
  if String.eqb os_type "ios" then
    [("ansible_network_os", PStr "ios");
     ("ansible_connection", PStr "network_cli");
     ("ansible_user", PStr "{{ vault_cisco_username }}");
     ("ansible_password", PStr "{{ vault_cisco_password }}")]
  else if String.eqb os_type "eos" then
    [("ansible_network_os", PStr "eos");
     ("ansible_connection", PStr "httpapi");
     ("ansible_httpapi_use_ssl", PBool true);
     ("ansible_httpapi_port", PInt 443);
     ("ansible_user", PStr "{{ vault_arista_username }}");
     ("ansible_password", PStr "{{ vault_arista_password }}")]
  else if String.eqb os_type "junos" then
    [("ansible_network_os", PStr "junos");
     ("ansible_connection", PStr "netconf");
     ("ansible_user", PStr "{{ vault_juniper_username }}");
     ("ansible_password", PStr "{{ vault_juniper_password }}")]
  else if String.eqb os_type "panos" then
    [("ansible_connection", PStr "local");
     ("panos_username", PStr "{{ vault_panos_username }}");
     ("panos_password", PStr "{{ vault_panos_password }}");
     ("panos_provider", PDict [
        ("ip_address", PStr "{{ ansible_host }}");
        ("username", PStr "{{ panos_username }}");
        ("password", PStr "{{ panos_password }}")])]
  else if String.eqb os_type "fortios" then
    [("ansible_connection", PStr "httpapi");
     ("ansible_httpapi_use_ssl", PBool true);
     ("ansible_httpapi_port", PInt 443);
     ("ansible_httpapi_session_key", PStr "{{ vault_fortigate_api_token }}")]
  else [].

Definition device_config (ip : A) (os_type : string) : list (string * pyval) :=
  Dict.update
    [("ansible_host", PStr (py_str ip));
     ("device_role", PStr "auto_discovered");
     ("site", PStr "discovered")]
    (os_parameters os_type).

(** The chain of subscripts that leads to the [hosts] mapping of a group. *)
Definition hosts_path (device_group : string) : list string :=
  if String.eqb device_group "cisco_routers" || String.eqb device_group "cisco_switches"
  then ["all"; "children"; "cisco_devices"; "children"; device_group; "hosts"]
  else if String.eqb device_group "palo_alto_firewalls"
  then ["all"; "children"; "palo_alto_devices"; "children"; device_group; "hosts"]
  else if String.eqb device_group "fortinet_firewalls"
  then ["all"; "children"; "fortinet_devices"; "children"; device_group; "hosts"]
  else if String.eqb device_group "juniper_routers"
  then ["all"; "children"; "juniper_devices"; "children"; device_group; "hosts"]
  else if String.eqb device_group "arista_switches"
  then ["all"; "children"; "arista_devices"; "children"; device_group; "hosts"]
  else ["all"; "children"; "unknown_devices"; "hosts"].

(** One turn of the loop over the discovered hosts. *)
Definition place_host (ip : A) (inventory : pyval) : result pyval :=
  (cls <- of_option ValueError (classify_device_type ip) ;;
   let '(device_group, os_type) := cls in
   setitem_at (hosts_path device_group) (hostname ip)
              (PDict (device_config ip os_type)) inventory)%result.

Fixpoint place_hosts (hosts : list A) (inventory : pyval) : result pyval :=
  match hosts with
  | [] => Ok inventory
  | ip :: rest =>
      (inventory' <- place_host ip inventory ;; place_hosts rest inventory')%result
  end.

(** [generate_inventory(discovered_hosts, output_format)]; the format does
    not influence the tree. *)
Definition generate_inventory (discovered_hosts : list A) (fmt : output_format)
  : result pyval :=
  place_hosts discovered_hosts empty_inventory.
End Builder.


(* ===================================================================== *)
(** * AddressSpaceExpander                                                *)
(* ===================================================================== *)

(** [ipaddress.IPv4Network]: the network address as an integer and the
    prefix length. *)
Record IPv4Network : Type := { network_address : Z; prefixlen : Z }.

Definition valid_network (n : IPv4Network) : Prop :=
  0 <= prefixlen n <= 32 /\
  0 <= network_address n /\
  network_address n + 2 ^ (32 - prefixlen n) <= 2 ^ 32.

Definition broadcast_address (n : IPv4Network) : Z :=
  network_address n + 2 ^ (32 - prefixlen n) - 1.

(** [range(lo, hi)] *)
Definition range (lo hi : Z) : list Z :=
  map (fun i => lo + Z.of_nat i) (seq 0 (Z.to_nat (hi - lo))).

(** [IPv4Network.hosts()]: every address but the network and the broadcast
    address; a /31 yields both of its addresses and a /32 its only one. *)
Definition hosts (n : IPv4Network) : list IPv4Address :=
  if prefixlen n =? 31 then
    map IPv4 (range (network_address n) (broadcast_address n + 1))
  else if prefixlen n =? 32 then [IPv4 (network_address n)]
  else map IPv4 (range (network_address n + 1) (broadcast_address n)).

(* ===================================================================== *)
(** * Effects: the trace of a run                                         *)
(* ===================================================================== *)

Inductive event : Type :=
| Print (line : string)
| Ping (ip : IPv4Address)
| Connect (ip : IPv4Address) (port : Z)
| OpenFile (path : string)
| WriteFile (path : string) (fmt : output_format) (document : pyval).

(** [OpenFile p]: [open(p, 'w')] has succeeded, so the file exists and is
    empty. [WriteFile p fmt d]: the document [d] has been dumped into the
    file in the encoding [fmt] and the file has been closed. After an
    [OpenFile] that no [WriteFile] follows the file is empty or holds a part
    of the document. *)

(** A computation emits events and returns or raises. Events emitted before
    an exception stay in the trace. *)
Definition io (A : Type) : Type := (list event * result A)%type.

Definition ret {A} (a : A) : io A := ([], Ok a).

Definition raise {A} (e : exn) : io A := ([], Raise e).

Definition emit (e : event) : io unit := ([e], Ok tt).

Definition print (line : string) : io unit := emit (Print line).

Definition io_bind {A B} (c : io A) (k : A -> io B) : io B :=
  match c with
  | (t, Ok a) => let (t', r) := k a in ((t ++ t')%list, r)
  | (t, Raise e) => (t, Raise e)
  end.

Definition lift {A} (r : result A) : io A := ([], r).

Declare Scope io_scope.
Delimit Scope io_scope with io.
Notation "x <- c ;; k" := (io_bind c (fun x => k))
  (at level 61, c at next level, right associativity) : io_scope.
Notation "c ;; k" := (io_bind c (fun _ => k))
  (at level 61, right associativity) : io_scope.

Definition trace {A} (c : io A) : list event := fst c.
Definition outcome {A} (c : io A) : result A := snd c.

(** The exit status of the process: [main] returning is success, an
    exception that escapes it ends the interpreter with status 1. *)
Definition exit_status (r : result unit) : Z :=
  match r with
  | Ok _ => 0
  | Raise _ => 1
  end.

Definition is_probe (e : event) : bool :=
  match e with
  | Ping _ | Connect _ _ => true
  | _ => false
  end.

(** The events that touch the output file. *)
Definition is_write (e : event) : bool :=
  match e with
  | OpenFile _ | WriteFile _ _ _ => true
  | _ => false
  end.

(* ===================================================================== *)
(** * The surroundings of a run                                           *)
(* ===================================================================== *)

(** What [subprocess.run] does for a ping command. *)
Inductive run_outcome : Type :=
| Completed (returncode : Z)
| TimeoutExpired
| RunError.

(** What opening a socket and calling [connect_ex] does. *)
Inductive connect_outcome : Type :=
| ConnectEx (code : Z)
| SocketError.

(** Everything outside the script: the library parser for range text
    ([inl] carries the message of its [ValueError]; only IPv4 networks are
    considered), the responders, the order in which a pool of a given size
    completes the submitted probes, the textual form of a [Path], whether
    [open(path, 'w')] raises, and whether the dump into the opened file or
    the closing of the file raises ([Some] carries the message of the
    exception). *)
Record Environment : Type := {
  ip_network : string -> string + IPv4Network;
  ping_run : IPv4Address -> run_outcome;
  tcp_connect : IPv4Address -> Z -> connect_outcome;
  as_completed : Z -> list IPv4Address -> list IPv4Address;
  path_text : string -> string;
  open_error : string -> option string;
  dump_error : string -> output_format -> pyval -> option string
}.

(** [sorted(l)] on addresses: a stable insertion sort by the integer value. *)
Fixpoint insert_sorted (a : IPv4Address) (l : list IPv4Address) : list IPv4Address :=
  match l with
  | [] => [a]
  | b :: rest =>
      if ip_int b <? ip_int a then b :: insert_sorted a rest else a :: l
  end.

Definition sorted (l : list IPv4Address) : list IPv4Address :=
  fold_right insert_sorted [] l.

Definition len {A} (l : list A) : Z := Z.of_nat (List.length l).

Definition nl : string := String (ascii_of_nat 10) EmptyString.

Section Pipeline.
Variable env : Environment.

(** [ping_host(ip)]: the address when the ping exits with status 0; a
    timeout, any other exception and any other status give [None]. *)
Definition ping_host (ip : IPv4Address) : io (option IPv4Address) :=
  (emit (Ping ip) ;;
   ret (match ping_run env ip with
        | Completed 0 => Some ip
        | _ => None
        end))%io.

(** [check_ssh_port(ip, port=22, timeout=3)] *)
Definition check_ssh_port (ip : IPv4Address) : io (option IPv4Address) :=
  (emit (Connect ip 22) ;;
   ret (match tcp_connect env ip 22 with
        | ConnectEx 0 => Some ip
        | _ => None
        end))%io.

(** The loop over [as_completed]: every non-[None] result is appended. *)
Fixpoint collect (probe : IPv4Address -> io (option IPv4Address))
  (completed : list IPv4Address) (found : list IPv4Address) : io (list IPv4Address) :=
  match completed with
  | [] => ret found
  | ip :: rest =>
      (r <- probe ip ;;
       collect probe rest (match r with
                           | Some x => found ++ [x]
                           | None => found
                           end))%io
  end.

(** One probing phase: a [ThreadPoolExecutor] of [max_workers] threads (its
    constructor raises [ValueError] unless [max_workers] is positive), one
    probe submitted per address, results taken in completion order. *)
Definition probe_phase (max_workers : Z)
  (probe : IPv4Address -> io (option IPv4Address))
  (addresses : list IPv4Address) : io (list IPv4Address) :=
  if max_workers <=? 0 then raise ValueError
  else collect probe (as_completed env max_workers addresses) [].

(** [discover_network_devices(network_range, max_workers)] *)
Definition discover_network_devices (network_range : string) (max_workers : Z)
  : io (list IPv4Address) :=
  (print ("Discovering devices in network range: " ++ network_range) ;;
   match ip_network env network_range with
   | inl e =>
       print ("Invalid network range: " ++ e) ;;
       ret []
   | inr network =>
       live_hosts <- probe_phase max_workers ping_host (hosts network) ;;
       print ("Found " ++ PyText.str_int (len live_hosts) ++ " responding hosts") ;;
       ssh_hosts <- probe_phase (max_workers / 2) check_ssh_port live_hosts ;;
       print ("Found " ++ PyText.str_int (len ssh_hosts) ++ " hosts with SSH enabled") ;;
       ret (sorted ssh_hosts)
   end)%io.

(** The parsed command line. *)
Record Args : Type := {
  network : string;
  output : string;
  format : output_format;
  workers : Z
}.

(** [main()], after the command line has been parsed. *)
Definition main (args : Args) : io unit :=
  (print "Network Device Discovery Tool" ;;
   print "========================================" ;;
   discovered_hosts <- discover_network_devices (network args) (workers args) ;;
   match discovered_hosts with
   | [] => print "No network devices found with SSH enabled"
   | _ :: _ =>
       inventory <- lift (generate_inventory discovered_hosts (format args)) ;;
       let output_path := path_text env (output args) in
       match open_error env output_path with
       | Some e => print ("Error writing inventory file: " ++ e)
       | None =>
           emit (OpenFile output_path) ;;
           match dump_error env output_path (format args) inventory with
           | Some e => print ("Error writing inventory file: " ++ e)
           | None =>
               emit (WriteFile output_path (format args) inventory) ;;
               print (nl ++ "Inventory file created: " ++ output_path) ;;
               print ("Discovered " ++ PyText.str_int (len discovered_hosts) ++ " network devices") ;;
               print (nl ++ "Next steps:") ;;
               print "1. Review and customize the generated inventory file" ;;
               print "2. Update device credentials in vault/secrets.yml" ;;
               print "3. Test connectivity with ansible all -m ping" ;;
               print "4. Customize device classifications as needed"
           end
       end
   end)%io.

End Pipeline.

(* ===================================================================== *)
(** * The static enterprise inventory                                     *)
(* ===================================================================== *)

(** [scripts/generate_complete_inventory.py]. The script builds the text of
    the document by appending pieces, each of which ends with a line break;
    the pieces are kept here as lists of lines. *)
Module CompleteInventory.

(** The double quote character. *)
Definition dq : string := String (ascii_of_nat 34) EmptyString.

(** [f"{n:0{width}d}"] for a natural number [n]. *)
Definition zero_padded (width : nat) (n : Z) : string :=
  let s := PyText.str_int n in
  String.concat EmptyString (repeat "0" (width - String.length s)) ++ s.

(** [l[k]] for an index within the list. *)
Definition item (l : list string) (k : Z) : string :=
  nth (Z.to_nat k) l EmptyString.

(** Every line followed by a line break. *)
Definition unlines (l : list string) : string :=
  String.concat EmptyString (map (fun line => line ++ nl) l).

Definition sites : list string :=
  ["datacenter_01"; "datacenter_01"; "datacenter_02"; "datacenter_02"; "datacenter_03";
   "datacenter_03"; "branch_01"; "branch_01"; "branch_02"; "branch_02"].

Definition dist_sites : list string :=
  ["datacenter_01"; "datacenter_01"; "datacenter_02"; "datacenter_02"; "branch_01"; "branch_01";
   "branch_02"; "branch_02"; "remote_01"; "remote_01"; "remote_02"; "remote_02"; "remote_03"; "remote_03";
   "remote_04"; "remote_04"; "remote_05"; "remote_05"; "remote_06"; "remote_06"].

(** Lines 15-34. *)
Definition header : list string :=
  ["---";
   "# Complete Enterprise-Scale Production Network Inventory";
   "# Total Device Count Summary:";
   "# - Development: 10 devices (completed)";
   "# - Cisco Devices: 300 switches + 200 routers = 500 total";
   "# - Arista Switches: 50 devices  ";
   "# - Juniper Routers: 50 devices";
   "# - Palo Alto Firewalls: 50 devices";
   "# TOTAL: 660 network devices";
   EmptyString;
   "all:";
   "  children:";
   "    # ===========================";
   "    # DEVELOPMENT ENVIRONMENT (10 devices)";
   "    # ===========================";
   "    development_devices:";
   "      children:";
   "        development_switches:";
   "          hosts:"].

(** Lines 38-48. *)
Definition development_switch (i : Z) : list string :=
  ["            sw-dev-" ++ zero_padded 3 i ++ ":";
   "              ansible_host: 10.255.1." ++ PyText.str_int (10 + i - 1);
   "              ansible_network_os: " ++ (if i <=? 3 then "ios" else "eos");
   "              ansible_connection: " ++ (if i <=? 3 then "network_cli" else "httpapi");
   "              ansible_user: " ++ dq ++ "{{ vault_" ++ (if i <=? 3 then "cisco" else "arista") ++ "_username }}" ++ dq;
   "              ansible_password: " ++ dq ++ "{{ vault_" ++ (if i <=? 3 then "cisco" else "arista") ++ "_password }}" ++ dq;
   "              " ++ (if 3 <? i then "ansible_httpapi_use_ssl: true" else EmptyString);
   "              " ++ (if 3 <? i then "ansible_httpapi_port: 443" else EmptyString);
   "              device_role: development_switch";
   "              site: dev_lab"].

(** Lines 50-52. *)
Definition development_routers_head : list string :=
  ["        development_routers:";
   "          hosts:"].

(** Lines 55-63. *)
Definition development_router (i : Z) : list string :=
  ["            rtr-dev-" ++ zero_padded 3 i ++ ":";
   "              ansible_host: 10.255.2." ++ PyText.str_int (10 + i - 1);
   "              ansible_network_os: " ++ (if i <=? 2 then "ios" else "junos");
   "              ansible_connection: " ++ (if i <=? 2 then "network_cli" else "netconf");
   "              ansible_user: " ++ dq ++ "{{ vault_" ++ (if i <=? 2 then "cisco" else "juniper") ++ "_username }}" ++ dq;
   "              ansible_password: " ++ dq ++ "{{ vault_" ++ (if i <=? 2 then "cisco" else "juniper") ++ "_password }}" ++ dq;
   "              device_role: development_router";
   "              site: dev_lab"].

(** Lines 65-97. *)
Definition development_firewalls_and_cisco_head : list string :=
  ["        development_firewalls:";
   "          hosts:";
   "            fw-dev-001:";
   "              ansible_host: 10.255.3.10";
   "              ansible_connection: local";
   "              panos_username: " ++ dq ++ "{{ vault_panos_username }}" ++ dq;
   "              panos_password: " ++ dq ++ "{{ vault_panos_password }}" ++ dq;
   "              device_role: development_firewall";
   "              site: dev_lab";
   "              panos_provider:";
   "                ip_address: " ++ dq ++ "{{ ansible_host }}" ++ dq;
   "                username: " ++ dq ++ "{{ panos_username }}" ++ dq;
   "                password: " ++ dq ++ "{{ panos_password }}" ++ dq;
   "                timeout: 120";
   "            fw-dev-002:";
   "              ansible_host: 10.255.3.11";
   "              ansible_connection: httpapi";
   "              ansible_httpapi_use_ssl: true";
   "              ansible_httpapi_port: 443";
   "              ansible_httpapi_session_key: " ++ dq ++ "{{ vault_fortigate_api_token }}" ++ dq;
   "              device_role: development_firewall";
   "              site: dev_lab";
   EmptyString;
   "    # ===========================";
   "    # CISCO DEVICES (500 TOTAL)";
   "    # ===========================";
   "    cisco_devices:";
   "      children:";
   "        cisco_switches:";
   "          children:";
   "            core_switches:";
   "              hosts:"].

(** Lines 104-112. *)
Definition core_switch (i : Z) : list string :=
  ["                sw-core-" ++ zero_padded 3 i ++ ":";
   "                  ansible_host: 10.0.1." ++ PyText.str_int (9 + i);
   "                  ansible_network_os: ios";
   "                  ansible_connection: network_cli";
   "                  ansible_user: " ++ dq ++ "{{ vault_cisco_username }}" ++ dq;
   "                  ansible_password: " ++ dq ++ "{{ vault_cisco_password }}" ++ dq;
   "                  device_role: core_switch";
   "                  site: " ++ item sites (i - 1)].

(** Lines 114-116. *)
Definition distribution_switches_head : list string :=
  ["            distribution_switches:";
   "              hosts:"].

(** Lines 124-132. *)
Definition distribution_switch (i : Z) : list string :=
  ["                sw-dist-" ++ zero_padded 2 i ++ ":";
   "                  ansible_host: 10.0.2." ++ PyText.str_int (9 + i);
   "                  ansible_network_os: ios";
   "                  ansible_connection: network_cli";
   "                  ansible_user: " ++ dq ++ "{{ vault_cisco_username }}" ++ dq;
   "                  ansible_password: " ++ dq ++ "{{ vault_cisco_password }}" ++ dq;
   "                  device_role: distribution_switch";
   "                  site: " ++ item dist_sites (i - 1)].

(** Lines 134-136. *)
Definition access_switches_head : list string :=
  ["            access_switches:";
   "              hosts:"].

(** Lines 142-151. *)
Definition access_switch (i : Z) : list string :=
  let site_num := ((i - 1) / 10) + 1 in
  let floor := ((i - 1) mod 10) + 1 in
  ["                sw-access-" ++ zero_padded 3 i ++ ":";
   "                  ansible_host: 10.0.3." ++ PyText.str_int i;
   "                  ansible_network_os: ios";
   "                  ansible_connection: network_cli";
   "                  ansible_user: " ++ dq ++ "{{ vault_cisco_username }}" ++ dq;
   "                  ansible_password: " ++ dq ++ "{{ vault_cisco_password }}" ++ dq;
   "                  device_role: access_switch";
   "                  site: site_" ++ zero_padded 2 site_num;
   "                  floor: " ++ PyText.str_int floor].

(** Lines 153-157. *)
Definition cisco_routers_head : list string :=
  ["        cisco_routers:";
   "          children:";
   "            wan_routers:";
   "              hosts:"].

(** Lines 163-172. *)
Definition wan_router (i : Z) : list string :=
  let site_num := ((i - 1) / 8) + 1 in
  let bgp_asn := 65000 + site_num in
  ["                rtr-wan-" ++ zero_padded 3 i ++ ":";
   "                  ansible_host: 10.1.2." ++ PyText.str_int i;
   "                  ansible_network_os: ios";
   "                  ansible_connection: network_cli";
   "                  ansible_user: " ++ dq ++ "{{ vault_cisco_username }}" ++ dq;
   "                  ansible_password: " ++ dq ++ "{{ vault_cisco_password }}" ++ dq;
   "                  device_role: wan_router";
   "                  site: site_" ++ zero_padded 2 site_num;
   "                  bgp_asn: " ++ PyText.str_int bgp_asn].

(** Lines 174-176. *)
Definition branch_routers_head : list string :=
  ["            branch_routers:";
   "              hosts:"].

(** Lines 182-191. *)
Definition branch_router (i : Z) : list string :=
  let site_num := ((i - 1) / 8) + 1 in
  let bgp_asn := 65000 + site_num in
  ["                rtr-branch-" ++ zero_padded 3 i ++ ":";
   "                  ansible_host: 10.1.3." ++ PyText.str_int i;
   "                  ansible_network_os: ios";
   "                  ansible_connection: network_cli";
   "                  ansible_user: " ++ dq ++ "{{ vault_cisco_username }}" ++ dq;
   "                  ansible_password: " ++ dq ++ "{{ vault_cisco_password }}" ++ dq;
   "                  device_role: branch_router";
   "                  site: site_" ++ zero_padded 2 site_num;
   "                  bgp_asn: " ++ PyText.str_int bgp_asn].

(** Lines 193-195. *)
Definition access_routers_head : list string :=
  ["            access_routers:";
   "              hosts:"].

(** Lines 201-210. *)
Definition access_router (i : Z) : list string :=
  let site_num := ((i - 1) / 8) + 1 in
  let bgp_asn := 65000 + site_num in
  ["                rtr-access-" ++ zero_padded 3 i ++ ":";
   "                  ansible_host: 10.1.4." ++ PyText.str_int i;
   "                  ansible_network_os: ios";
   "                  ansible_connection: network_cli";
   "                  ansible_user: " ++ dq ++ "{{ vault_cisco_username }}" ++ dq;
   "                  ansible_password: " ++ dq ++ "{{ vault_cisco_password }}" ++ dq;
   "                  device_role: access_router";
   "                  site: site_" ++ zero_padded 2 site_num;
   "                  bgp_asn: " ++ PyText.str_int bgp_asn].

(** Lines 212-220. *)
Definition arista_head : list string :=
  [EmptyString;
   "    # ===========================";
   "    # ARISTA DEVICES (50 TOTAL)";
   "    # ===========================";
   "    arista_devices:";
   "      children:";
   "        arista_switches:";
   "          hosts:"].

(** Lines 227-237. *)
Definition arista_switch (i : Z) : list string :=
  let device_type := if i <=? 10 then "spine" else "leaf" in
  let base_ip := if String.eqb device_type "spine" then 10 else 20 in
  let site_name := "datacenter_" ++ zero_padded 2 (((i - 1) / 5) + 1) in
  ["            sw-" ++ device_type ++ "-" ++ zero_padded 3 i ++ ":";
   "              ansible_host: 10.2." ++ PyText.str_int (if String.eqb device_type "spine" then 1 else 2) ++ "." ++ PyText.str_int (base_ip + i - 1);
   "              ansible_network_os: eos";
   "              ansible_connection: httpapi";
   "              ansible_httpapi_use_ssl: true";
   "              ansible_httpapi_port: 443";
   "              ansible_user: " ++ dq ++ "{{ vault_arista_username }}" ++ dq;
   "              ansible_password: " ++ dq ++ "{{ vault_arista_password }}" ++ dq;
   "              device_role: " ++ device_type ++ "_switch";
   "              site: " ++ site_name].

(** Lines 239-247. *)
Definition juniper_head : list string :=
  [EmptyString;
   "    # ===========================";
   "    # JUNIPER DEVICES (50 TOTAL)";
   "    # ===========================";
   "    juniper_devices:";
   "      children:";
   "        juniper_routers:";
   "          hosts:"].

(** Lines 265-274. *)
Definition juniper_router (i : Z) : list string :=
  let device_type := if i <=? 15 then "core" else if i <=? 35 then "edge" else "pe" in
  let base_ip := if i <=? 15 then 10 else if i <=? 35 then 20 else 45 in
  let site_num := if i <=? 15 then ((i - 1) / 5) + 1 else if i <=? 35 then ((i - 16) / 5) + 1 else ((i - 36) / 5) + 8 in
  let bgp_asn := 65100 + site_num in
  ["            rtr-" ++ device_type ++ "-jun-" ++ zero_padded 3 i ++ ":";
   "              ansible_host: 10.3." ++ PyText.str_int (if String.eqb device_type "core" then 1 else if String.eqb device_type "edge" then 2 else 3) ++ "." ++ PyText.str_int (base_ip + ((i - 1) mod 15));
   "              ansible_network_os: junos";
   "              ansible_connection: netconf";
   "              ansible_user: " ++ dq ++ "{{ vault_juniper_username }}" ++ dq;
   "              ansible_password: " ++ dq ++ "{{ vault_juniper_password }}" ++ dq;
   "              device_role: " ++ device_type ++ "_router";
   "              site: site_" ++ zero_padded 2 site_num;
   "              bgp_asn: " ++ PyText.str_int bgp_asn].

(** Lines 276-284. *)
Definition palo_alto_head : list string :=
  [EmptyString;
   "    # ===========================";
   "    # PALO ALTO DEVICES (50 TOTAL)";
   "    # ===========================";
   "    palo_alto_devices:";
   "      children:";
   "        palo_alto_firewalls:";
   "          hosts:"].

(** Lines 301-313. *)
Definition palo_alto_firewall (i : Z) : list string :=
  let device_type := if i <=? 10 then "perimeter" else if i <=? 25 then "internal" else "dmz" in
  let base_ip := if i <=? 10 then 10 else if i <=? 25 then 20 else 35 in
  let site_num := if i <=? 10 then ((i - 1) / 5) + 1 else if i <=? 25 then ((i - 11) / 5) + 3 else ((i - 26) / 5) + 6 in
  ["            fw-" ++ device_type ++ "-" ++ zero_padded 3 i ++ ":";
   "              ansible_host: 10.4." ++ PyText.str_int (if String.eqb device_type "perimeter" then 1 else if String.eqb device_type "internal" then 2 else 3) ++ "." ++ PyText.str_int (base_ip + ((i - 1) mod 10));
   "              ansible_connection: local";
   "              panos_username: " ++ dq ++ "{{ vault_panos_username }}" ++ dq;
   "              panos_password: " ++ dq ++ "{{ vault_panos_password }}" ++ dq;
   "              device_role: " ++ device_type ++ "_firewall";
   "              site: site_" ++ zero_padded 2 site_num;
   "              panos_provider:";
   "                ip_address: " ++ dq ++ "{{ ansible_host }}" ++ dq;
   "                username: " ++ dq ++ "{{ panos_username }}" ++ dq;
   "                password: " ++ dq ++ "{{ panos_password }}" ++ dq;
   "                timeout: 120"].

(** Lines 315-380. *)
Definition fortinet_and_logical_groupings : list string :=
  [EmptyString;
   "    # ===========================";
   "    # FORTINET DEVICES";
   "    # ===========================";
   "    fortinet_devices:";
   "      children:";
   "        fortinet_firewalls:";
   "          hosts:";
   "            fw-internal-fort-01:";
   "              ansible_host: 10.0.1.60";
   "              ansible_connection: httpapi";
   "              ansible_httpapi_use_ssl: true";
   "              ansible_httpapi_port: 443";
   "              ansible_httpapi_session_key: " ++ dq ++ "{{ vault_fortigate_api_token }}" ++ dq;
   "              device_role: internal_firewall";
   "              site: datacenter_01";
   EmptyString;
   "    # ===========================";
   "    # LOGICAL GROUPINGS";
   "    # ===========================";
   "    # Group by vendor";
   "    all_cisco:";
   "      children:";
   "        - cisco_devices";
   "    ";
   "    all_arista:";
   "      children:";
   "        - arista_devices";
   "    ";
   "    all_juniper:";
   "      children:";
   "        - juniper_devices";
   "    ";
   "    all_palo_alto:";
   "      children:";
   "        - palo_alto_devices";
   "    ";
   "    # Group by device type";
   "    all_switches:";
   "      children:";
   "        - cisco_devices:cisco_switches";
   "        - arista_devices:arista_switches";
   "    ";
   "    all_routers:";
   "      children:";
   "        - cisco_devices:cisco_routers";
   "        - juniper_devices:juniper_routers";
   "    ";
   "    all_firewalls:";
   "      children:";
   "        - palo_alto_devices:palo_alto_firewalls";
   "        - fortinet_devices:fortinet_firewalls";
   "        ";
   "    # Group by environment";
   "    production:";
   "      children:";
   "        - cisco_devices";
   "        - arista_devices";
   "        - juniper_devices";
   "        - palo_alto_devices";
   "        - fortinet_devices";
   "        ";
   "    development:";
   "      children:";
   "        - development_devices"].

(** The lines of the document, in the order the script appends them. *)
Definition inventory_lines : list string :=
  (header
   ++ flat_map development_switch (range 1 6)
   ++ development_routers_head
   ++ flat_map development_router (range 1 4)
   ++ development_firewalls_and_cisco_head
   ++ flat_map core_switch (range 1 11)
   ++ distribution_switches_head
   ++ flat_map distribution_switch (range 1 21)
   ++ access_switches_head
   ++ flat_map access_switch (range 1 271)
   ++ cisco_routers_head
   ++ flat_map wan_router (range 1 51)
   ++ branch_routers_head
   ++ flat_map branch_router (range 1 76)
   ++ access_routers_head
   ++ flat_map access_router (range 1 76)
   ++ arista_head
   ++ flat_map arista_switch (range 1 51)
   ++ juniper_head
   ++ flat_map juniper_router (range 1 51)
   ++ palo_alto_head
   ++ flat_map palo_alto_firewall (range 1 51)
   ++ fortinet_and_logical_groupings)%list.

(** [generate_complete_inventory()] *)
Definition generate_complete_inventory : string := unlines inventory_lines.

End CompleteInventory.

(* ===================================================================== *)
(** * The large-scale inventory fragments                                 *)
(* ===================================================================== *)

(** [scripts/generate_inventory.py]: each generator joins the entries of its
    devices with line breaks; the template puts the results between fixed
    lines and ends with a line break. *)
Module InventoryFragments.
Import CompleteInventory.

(** [role.split('_')[0]] *)
Definition first_word (role : string) : string :=
  hd EmptyString (PyText.split "_" role).

(** ['\n'.join(parts)] *)
Definition join_lines (parts : list string) : string := String.concat nl parts.

(** Lines 19-27. *)
Definition access_switch_config (i : Z) : list string :=
  let site_num := ((i - 1) / 10) + 1 in
  let switch_in_site := ((i - 1) mod 10) + 1 in
  ["            sw-access-" ++ zero_padded 3 i ++ ":";
   "              ansible_host: 10.0.3." ++ PyText.str_int i;
   "              ansible_network_os: ios";
   "              ansible_connection: network_cli";
   "              ansible_user: " ++ dq ++ "{ vault_cisco_username }" ++ dq;
   "              ansible_password: " ++ dq ++ "{ vault_cisco_password }" ++ dq;
   "              device_role: access_switch";
   "              site: site_" ++ zero_padded 2 site_num;
   "              floor: " ++ PyText.str_int switch_in_site].

(** Lines 54-62. *)
Definition cisco_router_config (i : Z) : list string :=
  let site_num := ((i - 1) / 8) + 1 in
  let role := if i <=? 20 then "edge_router" else if i <=? 50 then "wan_router" else if i <=? 100 then "branch_router" else "access_router" in
  let subnet := if i <=? 20 then "10.1.1" else if i <=? 50 then "10.1.2" else if i <=? 100 then "10.1.3" else "10.1.4" in
  let ip_offset := ((i - 1) mod 254) + 1 in
  let bgp_asn := 65000 + site_num in
  ["            rtr-" ++ first_word role ++ "-" ++ zero_padded 3 i ++ ":";
   "              ansible_host: " ++ subnet ++ "." ++ PyText.str_int ip_offset;
   "              ansible_network_os: ios";
   "              ansible_connection: network_cli";
   "              ansible_user: " ++ dq ++ "{ vault_cisco_username }" ++ dq;
   "              ansible_password: " ++ dq ++ "{ vault_cisco_password }" ++ dq;
   "              device_role: " ++ role;
   "              site: site_" ++ zero_padded 2 site_num;
   "              bgp_asn: " ++ PyText.str_int bgp_asn].

(** Lines 85-94. *)
Definition arista_switch_config (i : Z) : list string :=
  let site_num := ((i - 1) / 5) + 1 in
  let role := if i <=? 10 then "spine_switch" else if i <=? 25 then "leaf_switch" else "tor_switch" in
  let subnet := if i <=? 10 then "10.2.1" else if i <=? 25 then "10.2.2" else "10.2.3" in
  let ip_offset := ((i - 1) mod 50) + 10 in
  ["            sw-" ++ first_word role ++ "-" ++ zero_padded 3 i ++ ":";
   "              ansible_host: " ++ subnet ++ "." ++ PyText.str_int ip_offset;
   "              ansible_network_os: eos";
   "              ansible_connection: httpapi";
   "              ansible_httpapi_use_ssl: true";
   "              ansible_httpapi_port: 443";
   "              ansible_user: " ++ dq ++ "{ vault_arista_username }" ++ dq;
   "              ansible_password: " ++ dq ++ "{ vault_arista_password }" ++ dq;
   "              device_role: " ++ role;
   "              site: datacenter_" ++ zero_padded 2 site_num].

(** Lines 118-126. *)
Definition juniper_router_config (i : Z) : list string :=
  let site_num := ((i - 1) / 5) + 1 in
  let role := if i <=? 15 then "wan_router" else if i <=? 35 then "edge_router" else "pe_router" in
  let subnet := if i <=? 15 then "10.3.1" else if i <=? 35 then "10.3.2" else "10.3.3" in
  let ip_offset := ((i - 1) mod 50) + 10 in
  let bgp_asn := 65100 + site_num in
  ["            rtr-" ++ first_word role ++ "-jun-" ++ zero_padded 3 i ++ ":";
   "              ansible_host: " ++ subnet ++ "." ++ PyText.str_int ip_offset;
   "              ansible_network_os: junos";
   "              ansible_connection: netconf";
   "              ansible_user: " ++ dq ++ "{ vault_juniper_username }" ++ dq;
   "              ansible_password: " ++ dq ++ "{ vault_juniper_password }" ++ dq;
   "              device_role: " ++ role;
   "              site: site_" ++ zero_padded 2 site_num;
   "              bgp_asn: " ++ PyText.str_int bgp_asn].

(** Lines 152-163. *)
Definition firewall_config (i : Z) : list string :=
  let site_num := ((i - 1) / 5) + 1 in
  let role := if i <=? 10 then "perimeter_firewall" else if i <=? 25 then "internal_firewall" else if i <=? 40 then "dmz_firewall" else "datacenter_firewall" in
  let subnet := if i <=? 10 then "10.4.1" else if i <=? 25 then "10.4.2" else if i <=? 40 then "10.4.3" else "10.4.4" in
  let ip_offset := ((i - 1) mod 50) + 10 in
  ["            fw-" ++ first_word role ++ "-" ++ zero_padded 3 i ++ ":";
   "              ansible_host: " ++ subnet ++ "." ++ PyText.str_int ip_offset;
   "              ansible_connection: local";
   "              panos_username: " ++ dq ++ "{ vault_panos_username }" ++ dq;
   "              panos_password: " ++ dq ++ "{ vault_panos_password }" ++ dq;
   "              device_role: " ++ role;
   "              site: site_" ++ zero_padded 2 site_num;
   "              panos_provider:";
   "                ip_address: " ++ dq ++ "{ ansible_host }" ++ dq;
   "                username: " ++ dq ++ "{ panos_username }" ++ dq;
   "                password: " ++ dq ++ "{ panos_password }" ++ dq;
   "                timeout: 120"].

(** [generate_cisco_access_switches()] *)
Definition generate_cisco_access_switches : string :=
  join_lines (map (fun i => join_lines (access_switch_config i)) (range 1 271)).

(** [generate_cisco_routers()] *)
Definition generate_cisco_routers : string :=
  join_lines (map (fun i => join_lines (cisco_router_config i)) (range 1 201)).

(** [generate_arista_switches()] *)
Definition generate_arista_switches : string :=
  join_lines (map (fun i => join_lines (arista_switch_config i)) (range 1 51)).

(** [generate_juniper_routers()] *)
Definition generate_juniper_routers : string :=
  join_lines (map (fun i => join_lines (juniper_router_config i)) (range 1 51)).

(** [generate_palo_alto_firewalls()] *)
Definition generate_palo_alto_firewalls : string :=
  join_lines (map (fun i => join_lines (firewall_config i)) (range 1 51)).

(** The lines of the template of lines 171-209, the calls replaced by their
    results. *)
Definition inventory_template : list string :=
  [EmptyString;
   "            # Access Switches (270 devices - completing 300 total with core/dist)";
   generate_cisco_access_switches;
   EmptyString;
   "        cisco_routers:";
   "          hosts:";
   generate_cisco_routers;
   "    ";
   "    arista_devices:";
   "      children:";
   "        arista_switches:";
   "          hosts:";
   generate_arista_switches;
   "    ";
   "    juniper_devices:";
   "      children:";
   "        juniper_routers:";
   "          hosts:";
   generate_juniper_routers;
   "    ";
   "    palo_alto_devices:";
   "      children:";
   "        palo_alto_firewalls:";
   "          hosts:";
   generate_palo_alto_firewalls;
   "    ";
   "    fortinet_devices:";
   "      children:";
   "        fortinet_firewalls:";
   "          hosts:";
   "            fw-internal-01:";
   "              ansible_host: 10.5.1.10";
   "              ansible_connection: httpapi";
   "              ansible_httpapi_use_ssl: true";
   "              ansible_httpapi_port: 443";
   "              ansible_httpapi_session_key: " ++ dq ++ "{ vault_fortigate_api_token }" ++ dq;
   "              device_role: internal_firewall";
   "              site: datacenter_01"].

(** [generate_complete_inventory()] of this script. *)
Definition generate_complete_inventory : string :=
  join_lines inventory_template ++ nl.

End InventoryFragments.

(* ===================================================================== *)
(** * Facts about text                                                    *)
(* ===================================================================== *)

Module TextFacts.
Import PyText.

Fixpoint contains (c : ascii) (s : string) : bool :=
  match s with
  | EmptyString => false
  | String x t => Ascii.eqb x c || contains c t
  end.

Lemma split_nonempty c s : split c s <> [].
Proof.
  destruct s as [|x t]; simpl; [discriminate|].
  destruct (Ascii.eqb x c); [discriminate|].
  destruct (split c t); discriminate.
Qed.

Lemma split_app_sep c s t :
  contains c s = false -> split c (s ++ String c t) = s :: split c t.
Proof.
  induction s as [|x s IH]; simpl; intros Hc.
  - now rewrite Ascii.eqb_refl.
  - apply orb_false_iff in Hc as [Hx Hs].
    rewrite Hx, (IH Hs). reflexivity.
Qed.

Lemma split_no_sep c s : contains c s = false -> split c s = [s].
Proof.
  induction s as [|x s IH]; simpl; intros Hc; [reflexivity|].
  apply orb_false_iff in Hc as [Hx Hs].
  rewrite Hx, (IH Hs). reflexivity.
Qed.

Lemma append_inj_l p s t : p ++ s = p ++ t -> s = t.
Proof.
  induction p as [|x p IH]; simpl; intros Heq; [exact Heq|].
  apply IH. congruence.
Qed.

Lemma replace_app a b s t : replace a b (s ++ t) = replace a b s ++ replace a b t.
Proof. induction s as [|x s IH]; simpl; [reflexivity|now rewrite IH]. Qed.

Lemma replace_absent a b s : contains a s = false -> replace a b s = s.
Proof.
  induction s as [|x s IH]; simpl; intros Hc; [reflexivity|].
  apply orb_false_iff in Hc as [Hx Hs]. now rewrite Hx, (IH Hs).
Qed.

(** The decimal text of a byte has neither a dot nor a dash and reads back
    as the byte. *)
Definition byte_text_ok (o : Z) : bool :=
  negb (contains "."%char (str_int o)) &&
  negb (contains "-"%char (str_int o)) &&
  match int (str_int o) with
  | Some v => v =? o
  | None => false
  end.

Lemma byte_text_table : forallb byte_text_ok (range 0 256) = true.
Proof. vm_compute. reflexivity. Qed.

Lemma in_range lo hi x : lo <= x < hi -> In x (range lo hi).
Proof.
  intros Hx. unfold range. apply in_map_iff.
  exists (Z.to_nat (x - lo)). split; [lia|].
  apply in_seq. lia.
Qed.

Lemma range_bounds lo hi x : In x (range lo hi) -> lo <= x < hi.
Proof.
  unfold range. intros Hin. apply in_map_iff in Hin as (i & <- & Hi).
  apply in_seq in Hi. lia.
Qed.

Lemma byte_text o :
  0 <= o < 256 ->
  contains "."%char (str_int o) = false /\
  contains "-"%char (str_int o) = false /\
  int (str_int o) = Some o.
Proof.
  intros Ho.
  pose proof (proj1 (forallb_forall _ _) byte_text_table o (in_range Ho)) as Hok.
  unfold byte_text_ok in Hok.
  apply andb_true_iff in Hok as [Hok Hint].
  apply andb_true_iff in Hok as [Hdot Hdash].
  apply negb_true_iff in Hdot. apply negb_true_iff in Hdash.
  repeat split; try assumption.
  destruct (int (str_int o)) as [v|]; [|discriminate].
  apply Z.eqb_eq in Hint. now subst.
Qed.

End TextFacts.

(* ===================================================================== *)
(** * Facts about addresses and the classifier                            *)
(* ===================================================================== *)

Lemma octet_range k a : 0 <= octet k a < 256.
Proof.
  unfold octet. change 255 with (Z.ones 8).
  rewrite Z.land_ones by lia. apply Z.mod_pos_bound. lia.
Qed.

Lemma py_str_ipv4 a :
  py_str a =
  PyText.str_int (octet 3 a) ++ "." ++ PyText.str_int (octet 2 a) ++ "." ++
  PyText.str_int (octet 1 a) ++ "." ++ PyText.str_int (octet 0 a).
Proof. reflexivity. Qed.

Lemma split_py_str_ipv4 a :
  PyText.split "." (py_str a) =
  [PyText.str_int (octet 3 a); PyText.str_int (octet 2 a);
   PyText.str_int (octet 1 a); PyText.str_int (octet 0 a)].
Proof.
  rewrite py_str_ipv4.
  destruct (TextFacts.byte_text (octet_range 3 a)) as (H3 & _ & _).
  destruct (TextFacts.byte_text (octet_range 2 a)) as (H2 & _ & _).
  destruct (TextFacts.byte_text (octet_range 1 a)) as (H1 & _ & _).
  destruct (TextFacts.byte_text (octet_range 0 a)) as (H0 & _ & _).
  cbn [append].
  rewrite !TextFacts.split_app_sep by assumption.
  rewrite TextFacts.split_no_sep by assumption.
  reflexivity.
Qed.

(** The number the classifier reads is the least significant byte. *)
Lemma last_octet_ipv4 (a : IPv4Address) :
  PyText.int (PyText.last_item (PyText.split "." (py_str a))) = Some (octet 0 a).
Proof.
  rewrite split_py_str_ipv4. unfold PyText.last_item. simpl last.
  apply (TextFacts.byte_text (octet_range 0 a)).
Qed.

(** The bin table of the classifier as a function of the last octet. *)
Definition bin_of_octet (last_octet : Z) : string * string :=
  if (1 <=? last_octet) && (last_octet <=? 10) then ("cisco_routers", "ios")
  else if (11 <=? last_octet) && (last_octet <=? 30) then ("cisco_switches", "ios")
  else if (31 <=? last_octet) && (last_octet <=? 40) then ("arista_switches", "eos")
  else if (41 <=? last_octet) && (last_octet <=? 50) then ("juniper_routers", "junos")
  else if (51 <=? last_octet) && (last_octet <=? 60) then ("palo_alto_firewalls", "panos")
  else if (61 <=? last_octet) && (last_octet <=? 70) then ("fortinet_firewalls", "fortios")
  else ("unknown_devices", "unknown").

Lemma classify_ipv4 (a : IPv4Address) :
  classify_device_type a = Some (bin_of_octet (octet 0 a)).
Proof.
  unfold classify_device_type. rewrite last_octet_ipv4. reflexivity.
Qed.

Ltac bin_case :=
  unfold bin_of_octet;
  repeat match goal with
  | |- context [?x <=? ?y] =>
      let E := fresh "E" in
      destruct (Z.leb_spec x y) as [E|E]; simpl; try lia; try reflexivity
  end.

(** C1. For every IPv4 address the classifier maps the last octet into the
    fixed inclusive bins 1-10 (cisco_routers, ios), 11-30 (cisco_switches,
    ios), 31-40 (arista_switches, eos), 41-50 (juniper_routers, junos),
    51-60 (palo_alto_firewalls, panos), 61-70 (fortinet_firewalls, fortios);
    any other octet gives unknown_devices with the tag unknown. In
    particular .5, .25, .35, .45 and .200 get cisco_routers/ios,
    cisco_switches/ios, arista_switches/eos, juniper_routers/junos and
    unknown_devices. *)
Theorem classify_device_type_bins (a : IPv4Address) :
  let o := octet 0 a in
  (1 <= o <= 10 -> classify_device_type a = Some ("cisco_routers", "ios")) /\
  (11 <= o <= 30 -> classify_device_type a = Some ("cisco_switches", "ios")) /\
  (31 <= o <= 40 -> classify_device_type a = Some ("arista_switches", "eos")) /\
  (41 <= o <= 50 -> classify_device_type a = Some ("juniper_routers", "junos")) /\
  (51 <= o <= 60 -> classify_device_type a = Some ("palo_alto_firewalls", "panos")) /\
  (61 <= o <= 70 -> classify_device_type a = Some ("fortinet_firewalls", "fortios")) /\
  (o < 1 \/ 70 < o -> classify_device_type a = Some ("unknown_devices", "unknown")) /\
  (o = 5 -> classify_device_type a = Some ("cisco_routers", "ios")) /\
  (o = 25 -> classify_device_type a = Some ("cisco_switches", "ios")) /\
  (o = 35 -> classify_device_type a = Some ("arista_switches", "eos")) /\
  (o = 45 -> classify_device_type a = Some ("juniper_routers", "junos")) /\
  (o = 200 -> classify_device_type a = Some ("unknown_devices", "unknown")).
Proof.
  intros o. rewrite classify_ipv4. fold o.
  repeat split; intros Ho; f_equal; bin_case.
Qed.

(* ===================================================================== *)
(** * Facts about dictionaries                                            *)
(* ===================================================================== *)

Module DictFacts.
Section Facts.
Variable V : Type.
Implicit Types (d : list (string * V)) (k : string) (v : V).

Lemma get_set_same k v d : Dict.get k (Dict.set k v d) = Some v.
Proof.
  induction d as [|[k' v'] d IH]; simpl.
  - now rewrite String.eqb_refl.
  - destruct (String.eqb k' k) eqn:E; simpl; rewrite E; [reflexivity|exact IH].
Qed.

Lemma get_set_other k k' v d :
  k <> k' -> Dict.get k' (Dict.set k v d) = Dict.get k' d.
Proof.
  intros Hne. induction d as [|[k0 v0] d IH]; simpl.
  - destruct (String.eqb_spec k k'); [contradiction|reflexivity].
  - destruct (String.eqb_spec k0 k) as [->|Hk]; simpl.
    + destruct (String.eqb_spec k k'); [contradiction|reflexivity].
    + destruct (String.eqb_spec k0 k'); [reflexivity|exact IH].
Qed.

Lemma keys_set k v d :
  Dict.keys (Dict.set k v d) =
  if existsb (String.eqb k) (Dict.keys d) then Dict.keys d
  else (Dict.keys d ++ [k])%list.
Proof.
  unfold Dict.keys. induction d as [|[k0 v0] d IH]; simpl; [reflexivity|].
  rewrite (String.eqb_sym k k0).
  destruct (String.eqb k0 k); simpl; [reflexivity|].
  rewrite IH. now destruct (existsb (String.eqb k) (map fst d)).
Qed.

Lemma in_keys_set k k' v d :
  In k' (Dict.keys (Dict.set k v d)) <-> k' = k \/ In k' (Dict.keys d).
Proof.
  rewrite keys_set.
  destruct (existsb (String.eqb k) (Dict.keys d)) eqn:E.
  - apply existsb_exists in E as (x & Hx & Heq).
    apply String.eqb_eq in Heq. subst x.
    split; [now right|]. intros [->|Hin]; assumption.
  - rewrite in_app_iff. simpl. split.
    + intros [Hin|[<-|[]]]; [now right|now left].
    + intros [->|Hin]; [right; now left|now left].
Qed.

Lemma NoDup_keys_set k v d :
  NoDup (Dict.keys d) -> NoDup (Dict.keys (Dict.set k v d)).
Proof.
  intros Hnd. rewrite keys_set.
  destruct (existsb (String.eqb k) (Dict.keys d)) eqn:E; [assumption|].
  apply NoDup_app; [assumption|repeat constructor; simpl; tauto|].
  intros x Hx [Hk|[]]. subst x.
  assert (existsb (String.eqb k) (Dict.keys d) = true) as E'.
  { apply existsb_exists. exists k. split; [assumption|apply String.eqb_refl]. }
  congruence.
Qed.

Lemma get_in_keys k d : Dict.get k d <> None <-> In k (Dict.keys d).
Proof.
  unfold Dict.keys. induction d as [|[k0 v0] d IH]; simpl; [tauto|].
  destruct (String.eqb_spec k0 k) as [->|Hne].
  - split; [now left|discriminate].
  - rewrite IH. split; [now right|]. intros [Heq|Hin]; [contradiction|assumption].
Qed.

End Facts.
End DictFacts.

(* ===================================================================== *)
(** * Facts about the builder                                             *)
(* ===================================================================== *)

(** The groups that own host entries. *)
Definition leaf_groups : list string :=
  ["cisco_routers"; "cisco_switches"; "palo_alto_firewalls";
   "fortinet_firewalls"; "juniper_routers"; "arista_switches";
   "unknown_devices"].

(** The fixed skeleton of groups, with the given [hosts] mapping in each
    leaf group. *)
Definition inventory_of (leaf : string -> list (string * pyval)) : pyval :=
  PDict [("all", PDict [("children", PDict [
    ("cisco_devices", PDict [("children", PDict [
        ("cisco_routers", PDict [("hosts", PDict (leaf "cisco_routers"))]);
        ("cisco_switches", PDict [("hosts", PDict (leaf "cisco_switches"))])])]);
    ("palo_alto_devices", PDict [("children", PDict [
        ("palo_alto_firewalls", PDict [("hosts", PDict (leaf "palo_alto_firewalls"))])])]);
    ("fortinet_devices", PDict [("children", PDict [
        ("fortinet_firewalls", PDict [("hosts", PDict (leaf "fortinet_firewalls"))])])]);
    ("juniper_devices", PDict [("children", PDict [
        ("juniper_routers", PDict [("hosts", PDict (leaf "juniper_routers"))])])]);
    ("arista_devices", PDict [("children", PDict [
        ("arista_switches", PDict [("hosts", PDict (leaf "arista_switches"))])])]);
    ("unknown_devices", PDict [("hosts", PDict (leaf "unknown_devices"))])])])].

(** The [hosts] mapping of a leaf group of a document. *)
Definition leaf_hosts (inventory : pyval) (group : string) : list (string * pyval) :=
  match getitem_at (hosts_path group) inventory with
  | Ok (PDict d) => d
  | _ => []
  end.

(** The hostnames of all host entries of a document, leaf by leaf. *)
Definition all_hostnames (inventory : pyval) : list string :=
  List.concat (map (fun g => Dict.keys (leaf_hosts inventory g)) leaf_groups).

Definition no_hosts : string -> list (string * pyval) := fun _ => [].

(** One more entry in the leaf [group]. *)
Definition with_host (group hostname : string) (record : pyval)
  (leaf : string -> list (string * pyval)) : string -> list (string * pyval) :=
  fun g => if String.eqb g group then Dict.set hostname record (leaf g) else leaf g.

Lemma empty_inventory_skeleton : empty_inventory = inventory_of no_hosts.
Proof. reflexivity. Qed.

Lemma leaf_hosts_inventory_of leaf g :
  In g leaf_groups -> leaf_hosts (inventory_of leaf) g = leaf g.
Proof.
  unfold leaf_groups. simpl.
  intros [<-|[<-|[<-|[<-|[<-|[<-|[<-|[]]]]]]]]; reflexivity.
Qed.

Lemma setitem_at_leaf leaf g h v :
  In g leaf_groups ->
  setitem_at (hosts_path g) h v (inventory_of leaf) =
  Ok (inventory_of (with_host g h v leaf)).
Proof.
  unfold leaf_groups. simpl.
  intros [<-|[<-|[<-|[<-|[<-|[<-|[<-|[]]]]]]]]; reflexivity.
Qed.

Lemma bin_of_octet_leaf o : In (fst (bin_of_octet o)) leaf_groups.
Proof.
  unfold bin_of_octet, leaf_groups.
  repeat match goal with
  | |- context [if ?b then _ else _] => destruct b
  end; simpl; tauto.
Qed.

(** The group and the host record the builder derives for an address. *)
Definition group_of (a : IPv4Address) : string := fst (bin_of_octet (octet 0 a)).

Definition record_of (a : IPv4Address) : pyval :=
  PDict (device_config a (snd (bin_of_octet (octet 0 a)))).

Lemma place_host_ipv4 a leaf :
  place_host a (inventory_of leaf) =
  Ok (inventory_of (with_host (group_of a) (hostname a) (record_of a) leaf)).
Proof.
  unfold place_host. rewrite classify_ipv4. simpl of_option. unfold bind.
  destruct (bin_of_octet (octet 0 a)) as [g os] eqn:E.
  unfold group_of, record_of. rewrite E. simpl fst. simpl snd.
  apply setitem_at_leaf.
  pose proof (bin_of_octet_leaf (octet 0 a)) as Hin. now rewrite E in Hin.
Qed.

(** The leaf mappings after the loop over [l]. *)
Fixpoint placed (l : list IPv4Address) (leaf : string -> list (string * pyval))
  : string -> list (string * pyval) :=
  match l with
  | [] => leaf
  | a :: rest => placed rest (with_host (group_of a) (hostname a) (record_of a) leaf)
  end.

Lemma place_hosts_ipv4 l leaf :
  place_hosts l (inventory_of leaf) = Ok (inventory_of (placed l leaf)).
Proof.
  revert leaf. induction l as [|a l IH]; intros leaf; cbn [place_hosts placed].
  - reflexivity.
  - rewrite place_host_ipv4. cbn [bind]. apply IH.
Qed.

Lemma generate_inventory_ipv4 (l : list IPv4Address) fmt :
  generate_inventory l fmt = Ok (inventory_of (placed l no_hosts)).
Proof.
  unfold generate_inventory. rewrite empty_inventory_skeleton.
  apply place_hosts_ipv4.
Qed.

(** C10. For every list of discovered addresses, the empty list included, the
    built inventory is the fixed skeleton: root all with the children
    cisco_devices (cisco_routers, cisco_switches), palo_alto_devices
    (palo_alto_firewalls), fortinet_devices (fortinet_firewalls),
    juniper_devices (juniper_routers), arista_devices (arista_switches) and
    unknown_devices; for the empty list every leaf hosts mapping is empty. *)
Theorem generate_inventory_skeleton (l : list IPv4Address) (fmt : output_format) :
  (exists leaf, generate_inventory l fmt = Ok (inventory_of leaf)) /\
  generate_inventory (@nil IPv4Address) fmt = Ok (inventory_of (fun _ => [])) /\
  inventory_of (fun _ => []) = empty_inventory.
Proof.
  split; [|split].
  - exists (placed l no_hosts). apply generate_inventory_ipv4.
  - reflexivity.
  - reflexivity.
Qed.

(** ** The canonical hostname determines the address *)

Lemma ip_int_octets a :
  valid_ipv4 a ->
  ip_int a = octet 3 a * 2 ^ 24 + octet 2 a * 2 ^ 16 + octet 1 a * 2 ^ 8 + octet 0 a.
Proof.
  unfold valid_ipv4, octet. intros Hv.
  change 255 with (Z.ones 8).
  rewrite !Z.land_ones, !Z.shiftr_div_pow2 by lia.
  change (8 * 3) with 24. change (8 * 2) with 16.
  change (8 * 1) with 8. change (8 * 0) with 0.
  change (2 ^ 0) with 1. change (2 ^ 8) with 256.
  change (2 ^ 16) with 65536. change (2 ^ 24) with 16777216.
  change (2 ^ 32) with 4294967296 in Hv.
  Z.to_euclidean_division_equations. lia.
Qed.

Lemma hostname_ipv4 a :
  hostname a =
  "device-" ++ PyText.str_int (octet 3 a) ++ "-" ++ PyText.str_int (octet 2 a) ++ "-" ++
  PyText.str_int (octet 1 a) ++ "-" ++ PyText.str_int (octet 0 a).
Proof.
  unfold hostname. rewrite py_str_ipv4.
  destruct (TextFacts.byte_text (octet_range 3 a)) as (H3 & _ & _).
  destruct (TextFacts.byte_text (octet_range 2 a)) as (H2 & _ & _).
  destruct (TextFacts.byte_text (octet_range 1 a)) as (H1 & _ & _).
  destruct (TextFacts.byte_text (octet_range 0 a)) as (H0 & _ & _).
  rewrite !TextFacts.replace_app.
  rewrite (@TextFacts.replace_absent _ "-"%char _ H3), (@TextFacts.replace_absent _ "-"%char _ H2),
    (@TextFacts.replace_absent _ "-"%char _ H1), (@TextFacts.replace_absent _ "-"%char _ H0).
  reflexivity.
Qed.

Lemma split_hostname_tail a :
  PyText.split "-"
    (PyText.str_int (octet 3 a) ++ "-" ++ PyText.str_int (octet 2 a) ++ "-" ++
     PyText.str_int (octet 1 a) ++ "-" ++ PyText.str_int (octet 0 a)) =
  [PyText.str_int (octet 3 a); PyText.str_int (octet 2 a);
   PyText.str_int (octet 1 a); PyText.str_int (octet 0 a)].
Proof.
  destruct (TextFacts.byte_text (octet_range 3 a)) as (_ & H3 & _).
  destruct (TextFacts.byte_text (octet_range 2 a)) as (_ & H2 & _).
  destruct (TextFacts.byte_text (octet_range 1 a)) as (_ & H1 & _).
  destruct (TextFacts.byte_text (octet_range 0 a)) as (_ & H0 & _).
  cbn [append].
  rewrite !TextFacts.split_app_sep by assumption.
  rewrite TextFacts.split_no_sep by assumption.
  reflexivity.
Qed.

Lemma str_int_octet_inj k a b :
  PyText.str_int (octet k a) = PyText.str_int (octet k b) -> octet k a = octet k b.
Proof.
  intros Heq.
  destruct (TextFacts.byte_text (octet_range k a)) as (_ & _ & Ha).
  destruct (TextFacts.byte_text (octet_range k b)) as (_ & _ & Hb).
  rewrite Heq in Ha. congruence.
Qed.

Lemma hostname_inj a b :
  valid_ipv4 a -> valid_ipv4 b -> hostname a = hostname b -> a = b.
Proof.
  intros Ha Hb Heq. rewrite !hostname_ipv4 in Heq.
  apply TextFacts.append_inj_l in Heq.
  apply (f_equal (PyText.split "-")) in Heq.
  pose proof (split_hostname_tail a) as Sa.
  pose proof (split_hostname_tail b) as Sb.
  rewrite Sa, Sb in Heq.
  injection Heq as E3 E2 E1 E0.
  apply str_int_octet_inj in E3, E2, E1, E0.
  destruct a as [x], b as [y]. f_equal.
  pose proof (ip_int_octets Ha) as Hx. pose proof (ip_int_octets Hb) as Hy.
  simpl ip_int in Hx, Hy. rewrite E3, E2, E1, E0 in Hx. congruence.
Qed.

(** ** The host entries after the loop *)

Lemma placed_keys l leaf g h :
  In h (Dict.keys (placed l leaf g)) <->
  In h (Dict.keys (leaf g)) \/
  exists a, In a l /\ group_of a = g /\ hostname a = h.
Proof.
  revert leaf. induction l as [|a l IH]; intros leaf; cbn [placed].
  - split; [now left|]. intros [Hin|(a & [] & _)]. exact Hin.
  - rewrite IH. unfold with_host at 1.
    destruct (String.eqb_spec g (group_of a)) as [Hg|Hg].
    + rewrite DictFacts.in_keys_set. split.
      * intros [[->|Hin]|(b & Hb & Hgb & Hhb)].
        -- right. exists a. split; [now left|]. now split.
        -- now left.
        -- right. exists b. split; [now right|]. now split.
      * intros [Hin|(b & [<-|Hb] & Hgb & Hhb)].
        -- left. now right.
        -- left. now left.
        -- right. exists b. now repeat split.
    + split.
      * intros [Hin|(b & Hb & Hgb & Hhb)]; [now left|].
        right. exists b. split; [now right|]. now split.
      * intros [Hin|(b & [<-|Hb] & Hgb & Hhb)]; [now left|congruence|].
        right. exists b. now repeat split.
Qed.

Lemma placed_NoDup l leaf g :
  NoDup (Dict.keys (leaf g)) -> NoDup (Dict.keys (placed l leaf g)).
Proof.
  revert leaf. induction l as [|a l IH]; intros leaf Hnd; cbn [placed]; [exact Hnd|].
  apply IH. unfold with_host.
  destruct (String.eqb g (group_of a)); [|exact Hnd].
  now apply DictFacts.NoDup_keys_set.
Qed.

Lemma placed_get l leaf g h v :
  Dict.get h (placed l leaf g) = Some v ->
  Dict.get h (leaf g) = Some v \/
  exists a, In a l /\ group_of a = g /\ hostname a = h /\ record_of a = v.
Proof.
  revert leaf. induction l as [|a l IH]; intros leaf; cbn [placed]; [now left|].
  intros Hget. apply IH in Hget as [Hget|(b & Hb & Hgb & Hhb & Hrb)].
  - unfold with_host in Hget.
    destruct (String.eqb_spec g (group_of a)) as [Hg|Hg]; [|now left].
    destruct (string_dec (hostname a) h) as [Hh|Hh].
    + subst h. rewrite DictFacts.get_set_same in Hget.
      right. exists a. split; [now left|]. repeat split; congruence.
    + rewrite DictFacts.get_set_other in Hget by assumption. now left.
  - right. exists b. split; [now right|]. now repeat split.
Qed.

Lemma placed_record l a :
  Forall valid_ipv4 l -> In a l ->
  Dict.get (hostname a) (placed l no_hosts (group_of a)) = Some (record_of a).
Proof.
  intros Hv Hin.
  assert (In (hostname a) (Dict.keys (placed l no_hosts (group_of a)))) as Hk.
  { apply placed_keys. right. exists a. now repeat split. }
  apply DictFacts.get_in_keys in Hk.
  destruct (Dict.get (hostname a) (placed l no_hosts (group_of a))) as [v|] eqn:E;
    [|contradiction].
  apply placed_get in E as [E|(b & Hb & _ & Hhb & Hrb)]; [discriminate|].
  rewrite Forall_forall in Hv.
  apply hostname_inj in Hhb; [|now apply Hv|now apply Hv].
  now subst b v.
Qed.

Lemma NoDup_concat_map {A B} (F : A -> list B) (gs : list A) :
  NoDup gs ->
  (forall g, In g gs -> NoDup (F g)) ->
  (forall g g' x, In g gs -> In g' gs -> In x (F g) -> In x (F g') -> g = g') ->
  NoDup (List.concat (map F gs)).
Proof.
  induction gs as [|g gs IH]; intros Hnd Heach Hdisj; simpl; [constructor|].
  inversion Hnd as [|? ? Hnotin Hnd']; subst.
  apply NoDup_app.
  - apply Heach. now left.
  - apply IH; [assumption| |].
    + intros g' Hg'. apply Heach. now right.
    + intros g1 g2 x H1 H2. apply Hdisj; now right.
  - intros x Hx Hc. apply in_concat in Hc as (ys & Hys & Hxy).
    apply in_map_iff in Hys as (g' & <- & Hg').
    assert (g = g') as -> by (apply (Hdisj g g' x); [now left|now right|assumption|assumption]).
    contradiction.
Qed.

Lemma leaf_groups_NoDup : NoDup leaf_groups.
Proof.
  unfold leaf_groups.
  repeat (constructor; [simpl; intros H; repeat destruct H as [H|H]; try discriminate H; exact H|]).
  constructor.
Qed.

Lemma group_of_leaf a : In (group_of a) leaf_groups.
Proof. apply bin_of_octet_leaf. Qed.

Lemma all_hostnames_iff l h :
  In h (all_hostnames (inventory_of (placed l no_hosts))) <->
  exists a, In a l /\ hostname a = h.
Proof.
  unfold all_hostnames. rewrite in_concat. split.
  - intros (ks & Hks & Hh). apply in_map_iff in Hks as (g & <- & Hg).
    rewrite leaf_hosts_inventory_of in Hh by assumption.
    apply placed_keys in Hh as [[]|(a & Ha & _ & Hha)]. now exists a.
  - intros (a & Ha & Hha).
    exists (Dict.keys (leaf_hosts (inventory_of (placed l no_hosts)) (group_of a))).
    split.
    + apply in_map_iff. exists (group_of a). split; [reflexivity|apply group_of_leaf].
    + rewrite leaf_hosts_inventory_of by apply group_of_leaf.
      apply placed_keys. right. now exists a.
Qed.

Lemma all_hostnames_NoDup l :
  Forall valid_ipv4 l -> NoDup (all_hostnames (inventory_of (placed l no_hosts))).
Proof.
  intros Hv. unfold all_hostnames. apply NoDup_concat_map.
  - apply leaf_groups_NoDup.
  - intros g Hg. rewrite leaf_hosts_inventory_of by assumption.
    apply placed_NoDup. constructor.
  - intros g g' h Hg Hg' Hh Hh'.
    rewrite leaf_hosts_inventory_of in Hh, Hh' by assumption.
    apply placed_keys in Hh as [[]|(a & Ha & Hga & Hha)].
    apply placed_keys in Hh' as [[]|(b & Hb & Hgb & Hhb)].
    rewrite Forall_forall in Hv.
    assert (a = b) as -> by (apply hostname_inj; [now apply Hv|now apply Hv|congruence]).
    congruence.
Qed.


(* ===================================================================== *)
(** * Facts about sorting                                                 *)
(* ===================================================================== *)

Definition ip_le (a b : IPv4Address) : Prop := ip_int a <= ip_int b.

Lemma ip_le_antisym a b : ip_le a b -> ip_le b a -> a = b.
Proof.
  unfold ip_le. destruct a as [x], b as [y]; simpl. intros. f_equal. lia.
Qed.

Lemma insert_sorted_perm a l : Permutation (insert_sorted a l) (a :: l).
Proof.
  induction l as [|b l IH]; simpl; [reflexivity|].
  destruct (ip_int b <? ip_int a); [|reflexivity].
  rewrite IH. apply perm_swap.
Qed.

Lemma sorted_perm l : Permutation (sorted l) l.
Proof.
  induction l as [|a l IH]; simpl; [constructor|].
  rewrite insert_sorted_perm. now constructor.
Qed.

Lemma insert_sorted_ordered a l :
  StronglySorted ip_le l -> StronglySorted ip_le (insert_sorted a l).
Proof.
  induction l as [|b l IH]; simpl; intros Hs.
  - repeat constructor.
  - apply StronglySorted_inv in Hs as [Hs Hb].
    destruct (Z.ltb_spec (ip_int b) (ip_int a)) as [Hlt|Hge].
    + constructor; [now apply IH|].
      rewrite Forall_forall in *. intros x Hx.
      apply (Permutation_in _ (insert_sorted_perm a l)) in Hx as [<-|Hx].
      * unfold ip_le. lia.
      * now apply Hb.
    + constructor; [now constructor|].
      constructor; [exact Hge|].
      rewrite Forall_forall in *. intros x Hx.
      unfold ip_le in *. specialize (Hb x Hx). lia.
Qed.

Lemma sorted_ordered l : StronglySorted ip_le (sorted l).
Proof.
  induction l as [|a l IH]; simpl; [constructor|now apply insert_sorted_ordered].
Qed.

(** Two ascending lists with the same elements are the same list. *)
Lemma ordered_perm_unique l1 l2 :
  StronglySorted ip_le l1 -> StronglySorted ip_le l2 -> Permutation l1 l2 -> l1 = l2.
Proof.
  revert l2. induction l1 as [|a l1 IH]; intros l2 H1 H2 Hp.
  - apply Permutation_nil in Hp. now subst.
  - destruct l2 as [|b l2].
    + apply Permutation_sym, Permutation_nil in Hp. discriminate.
    + apply StronglySorted_inv in H1 as [H1 Ha].
      apply StronglySorted_inv in H2 as [H2 Hb].
      rewrite Forall_forall in Ha, Hb.
      assert (a = b) as ->.
      { assert (In a (b :: l2)) as Hin
          by (apply (Permutation_in _ Hp); now left).
        assert (In b (a :: l1)) as Hin'
          by (apply (Permutation_in _ (Permutation_sym Hp)); now left).
        destruct Hin as [->|Hin]; [reflexivity|].
        destruct Hin' as [->|Hin']; [reflexivity|].
        apply ip_le_antisym; [now apply Ha|now apply Hb]. }
      f_equal. apply IH; [assumption|assumption|].
      now apply Permutation_cons_inv with b.
Qed.

Lemma sorted_of_perm l1 l2 : Permutation l1 l2 -> sorted l1 = sorted l2.
Proof.
  intros Hp. apply ordered_perm_unique; try apply sorted_ordered.
  rewrite !sorted_perm. exact Hp.
Qed.

Lemma filter_perm {A} (f : A -> bool) l1 l2 :
  Permutation l1 l2 -> Permutation (filter f l1) (filter f l2).
Proof.
  induction 1 as [|x l1 l2 _ IH|x y l|l1 l2 l3 _ IH1 _ IH2]; simpl.
  - constructor.
  - destruct (f x); [now constructor|exact IH].
  - destruct (f x), (f y); try reflexivity. apply perm_swap.
  - now transitivity (filter f l2).
Qed.

(* ===================================================================== *)
(** * Facts about the probing phases                                      *)
(* ===================================================================== *)

(** The scheduler hands back every submitted probe exactly once. *)
Definition fair (env : Environment) : Prop :=
  forall w l, Permutation (as_completed env w l) l.

(** The library parser yields well-formed networks only. *)
Definition parser_sound (env : Environment) : Prop :=
  forall s n, ip_network env s = inr n -> valid_network n.

(** The addresses a range text expands to; none when it does not parse. *)
Definition expand (env : Environment) (network_range : string) : list IPv4Address :=
  match ip_network env network_range with
  | inr n => hosts n
  | inl _ => []
  end.

Definition ping_ok (env : Environment) (ip : IPv4Address) : bool :=
  match ping_run env ip with
  | Completed 0 => true
  | _ => false
  end.

Definition ssh_ok (env : Environment) (ip : IPv4Address) : bool :=
  match tcp_connect env ip 22 with
  | ConnectEx 0 => true
  | _ => false
  end.

Section PhaseFacts.
Variable env : Environment.

Lemma ping_host_eq ip :
  ping_host env ip = ([Ping ip], Ok (if ping_ok env ip then Some ip else None)).
Proof.
  unfold ping_host, ping_ok. cbn.
  destruct (ping_run env ip) as [[| |]| |]; reflexivity.
Qed.

Lemma check_ssh_port_eq ip :
  check_ssh_port env ip =
  ([Connect ip 22], Ok (if ssh_ok env ip then Some ip else None)).
Proof.
  unfold check_ssh_port, ssh_ok. cbn.
  destruct (tcp_connect env ip 22) as [[| |]|]; reflexivity.
Qed.

Lemma collect_eq probe (ev : IPv4Address -> event) (pass : IPv4Address -> bool) :
  (forall ip, probe ip = ([ev ip], Ok (if pass ip then Some ip else None))) ->
  forall l found,
    collect probe l found = (map ev l, Ok (found ++ filter pass l)%list).
Proof.
  intros Hp. induction l as [|a l IH]; intros found; cbn [collect map filter].
  - unfold ret. now rewrite app_nil_r.
  - rewrite Hp. cbn [io_bind]. destruct (pass a); rewrite IH; cbn.
    + now rewrite <- app_assoc.
    + reflexivity.
Qed.

Lemma probe_phase_eq w probe (ev : IPv4Address -> event) (pass : IPv4Address -> bool) l :
  (forall ip, probe ip = ([ev ip], Ok (if pass ip then Some ip else None))) ->
  0 < w ->
  probe_phase env w probe l =
  (map ev (as_completed env w l), Ok (filter pass (as_completed env w l))).
Proof.
  intros Hp Hw. unfold probe_phase.
  destruct (Z.leb_spec w 0); [lia|].
  now rewrite (collect_eq _ _ _ Hp).
Qed.

Lemma probe_phase_raises w probe l :
  w <= 0 -> probe_phase env w probe l = ([], Raise ValueError).
Proof.
  intros Hw. unfold probe_phase. destruct (Z.leb_spec w 0); [reflexivity|lia].
Qed.

(** The addresses found live, in completion order. *)
Definition live_hosts (w : Z) (n : IPv4Network) : list IPv4Address :=
  filter (ping_ok env) (as_completed env w (hosts n)).

(** The live addresses found with the service open, in completion order. *)
Definition ssh_hosts (w : Z) (n : IPv4Network) : list IPv4Address :=
  filter (ssh_ok env) (as_completed env (w / 2) (live_hosts w n)).

Lemma discover_invalid network_range w msg :
  ip_network env network_range = inl msg ->
  discover_network_devices env network_range w =
  ([Print ("Discovering devices in network range: " ++ network_range);
    Print ("Invalid network range: " ++ msg)], Ok []).
Proof.
  intros Hp. unfold discover_network_devices. rewrite Hp. reflexivity.
Qed.

Lemma discover_valid network_range w n :
  ip_network env network_range = inr n ->
  2 <= w ->
  discover_network_devices env network_range w =
  ((Print ("Discovering devices in network range: " ++ network_range)
    :: map Ping (as_completed env w (hosts n)))
   ++ (Print ("Found " ++ PyText.str_int (len (live_hosts w n)) ++ " responding hosts")
    :: map (fun ip => Connect ip 22) (as_completed env (w / 2) (live_hosts w n)))
   ++ [Print ("Found " ++ PyText.str_int (len (ssh_hosts w n)) ++ " hosts with SSH enabled")],
   Ok (sorted (ssh_hosts w n)))%list.
Proof.
  intros Hp Hw. unfold discover_network_devices. rewrite Hp.
  rewrite (probe_phase_eq _ _ _ _ ping_host_eq) by lia.
  assert (0 < w / 2) as Hw2 by (apply Z.div_str_pos; lia).
  unfold print, emit. cbn [io_bind app].
  rewrite (probe_phase_eq _ _ _ _ check_ssh_port_eq) by exact Hw2.
  unfold live_hosts, ssh_hosts, ret. cbn [io_bind app].
  rewrite ?app_nil_r. reflexivity.
Qed.

(** With one worker the first pool is built and runs, the second pool gets
    the bound [1 // 2 = 0] and its constructor raises. *)
Lemma discover_one_worker network_range n :
  ip_network env network_range = inr n ->
  discover_network_devices env network_range 1 =
  ((Print ("Discovering devices in network range: " ++ network_range)
    :: map Ping (as_completed env 1 (hosts n)))
   ++ [Print ("Found " ++ PyText.str_int (len (live_hosts 1 n)) ++ " responding hosts")],
   Raise ValueError)%list.
Proof.
  intros Hp. unfold discover_network_devices. rewrite Hp.
  rewrite (probe_phase_eq _ _ _ _ ping_host_eq) by lia.
  unfold print, emit. cbn [io_bind app].
  rewrite probe_phase_raises by (change (1 / 2) with 0; lia).
  unfold live_hosts. cbn [io_bind app]. rewrite ?app_nil_r. reflexivity.
Qed.

Hypothesis Hfair : fair env.

Lemma in_live_hosts w n a :
  In a (live_hosts w n) <-> In a (hosts n) /\ ping_ok env a = true.
Proof.
  unfold live_hosts. rewrite filter_In.
  split; intros [Hin Hok]; (split; [|exact Hok]).
  - apply (Permutation_in _ (Hfair w (hosts n))), Hin.
  - apply (Permutation_in _ (Permutation_sym (Hfair w (hosts n)))), Hin.
Qed.

Lemma in_ssh_hosts w n a :
  In a (ssh_hosts w n) <->
  In a (hosts n) /\ ping_ok env a = true /\ ssh_ok env a = true.
Proof.
  unfold ssh_hosts. rewrite filter_In. split.
  - intros [Hin Hok]. apply (Permutation_in _ (Hfair _ _)) in Hin.
    apply in_live_hosts in Hin as [Hh Hping]. now repeat split.
  - intros (Hh & Hping & Hok). split; [|exact Hok].
    apply (Permutation_in _ (Permutation_sym (Hfair _ _))).
    apply in_live_hosts. now split.
Qed.

Lemma ssh_hosts_perm w n :
  Permutation (ssh_hosts w n)
    (filter (fun a => ping_ok env a && ssh_ok env a) (hosts n)).
Proof.
  unfold ssh_hosts, live_hosts.
  rewrite (filter_perm _ (Hfair (w / 2) _)).
  rewrite (filter_perm _ (filter_perm _ (Hfair w (hosts n)))).
  induction (hosts n) as [|a l IH]; cbn [filter]; [constructor|].
  destruct (ping_ok env a); cbn [filter andb]; [|exact IH].
  destruct (ssh_ok env a); [now constructor|exact IH].
Qed.

Lemma sorted_ssh_hosts w n :
  sorted (ssh_hosts w n) =
  sorted (filter (fun a => ping_ok env a && ssh_ok env a) (hosts n)).
Proof. apply sorted_of_perm, ssh_hosts_perm. Qed.

End PhaseFacts.

(* ===================================================================== *)
(** * A concrete environment                                              *)
(* ===================================================================== *)

Module Example.

Definition all_digits (s : string) : bool :=
  negb (String.eqb s EmptyString) && forallb PyText.is_digit (list_ascii_of_string s).

(** One decimal octet of an address: one to three digits, no leading zero,
    at most 255. *)
Definition parse_octet (s : string) : option Z :=
  if all_digits s && (String.length s <=? 3)%nat &&
     negb ((1 <? String.length s)%nat && String.prefix "0" s)
  then match PyText.int s with
       | Some v => if v <=? 255 then Some v else None
       | None => None
       end
  else None.

Definition parse_address (s : string) : option Z :=
  match map parse_octet (PyText.split "." s) with
  | [Some a; Some b; Some c; Some d] => Some (((a * 256 + b) * 256 + c) * 256 + d)
  | _ => None
  end.

Definition parse_prefixlen (s : string) : option Z :=
  if all_digits s
  then match PyText.int s with
       | Some v => if v <=? 32 then Some v else None
       | None => None
       end
  else None.

Definition no_network (s : string) : string :=
  "'" ++ s ++ "' does not appear to be an IPv4 or IPv6 network".

(** [ipaddress.ip_network(s, strict=False)] on the texts [a.b.c.d] and
    [a.b.c.d/len]: the host bits of the address are cleared. Netmask
    notation and IPv6 text, which the library also reads, are left out, so
    this parser serves the concrete runs below and nothing else. *)
Definition ip_network_text (s : string) : string + IPv4Network :=
  match PyText.split "/" s with
  | [addr] =>
      match parse_address addr with
      | Some a => inr {| network_address := a; prefixlen := 32 |}
      | None => inl (no_network s)
      end
  | [addr; len] =>
      match parse_address addr, parse_prefixlen len with
      | Some a, Some p =>
          inr {| network_address := a - a mod 2 ^ (32 - p); prefixlen := p |}
      | _, _ => inl (no_network s)
      end
  | _ => inl (no_network s)
  end.

Definition member (a : IPv4Address) (l : list Z) : bool :=
  existsb (Z.eqb (ip_int a)) l.

(** Responders: the addresses in [live] answer the ping, those in [slow] let
    it time out, all others report failure; the addresses in [open] accept
    the connection, those in [broken] make the socket call raise, all others
    refuse. A pool of one worker completes in submission order, a larger pool
    in reverse order. The file can be opened and written. *)
Definition responders (live slow open broken : list Z) : Environment :=
  {| ip_network := ip_network_text;
     ping_run := fun a =>
       if member a live then Completed 0
       else if member a slow then TimeoutExpired
       else Completed 1;
     tcp_connect := fun a _ =>
       if member a open then ConnectEx 0
       else if member a broken then SocketError
       else ConnectEx 111;
     as_completed := fun w l => if w =? 1 then l else rev l;
     path_text := fun s => s;
     open_error := fun _ => None;
     dump_error := fun _ _ _ => None |}.

(** The same surroundings with a dump that raises after the file has been
    opened. *)
Definition with_failing_dump (env : Environment) (message : string) : Environment :=
  {| ip_network := ip_network env;
     ping_run := ping_run env;
     tcp_connect := tcp_connect env;
     as_completed := as_completed env;
     path_text := path_text env;
     open_error := open_error env;
     dump_error := fun _ _ _ => Some message |}.

Lemma responders_fair live slow open broken : fair (responders live slow open broken).
Proof.
  intros w l. cbn. destruct (w =? 1); [reflexivity|].
  apply Permutation_sym, Permutation_rev.
Qed.

Definition args (network_range : string) (w : Z) : Args :=
  {| network := network_range;
     output := "discovered_inventory.yml";
     format := yaml;
     workers := w |}.

End Example.

Lemma example_parse_30 :
  Example.ip_network_text "203.0.113.0/30" =
  inr {| network_address := 3405803776; prefixlen := 30 |}.
Proof. reflexivity. Qed.

Lemma example_hosts_30 :
  hosts {| network_address := 3405803776; prefixlen := 30 |} =
  [IPv4 3405803777; IPv4 3405803778].
Proof. reflexivity. Qed.

Lemma example_parse_invalid :
  Example.ip_network_text "not-a-network" =
  inl "'not-a-network' does not appear to be an IPv4 or IPv6 network".
Proof. reflexivity. Qed.

(* ===================================================================== *)
(** * The pipeline                                                        *)
(* ===================================================================== *)

Lemma hosts_valid n a : valid_network n -> In a (hosts n) -> valid_ipv4 a.
Proof.
  unfold valid_network, hosts, broadcast_address, valid_ipv4.
  intros (Hp & Hlo & Hhi) Hin.
  assert (0 < 2 ^ (32 - prefixlen n)) by (apply Z.pow_pos_nonneg; lia).
  destruct (prefixlen n =? 31); [|destruct (prefixlen n =? 32)].
  - apply in_map_iff in Hin as (x & <- & Hx).
    apply TextFacts.range_bounds in Hx. simpl. lia.
  - destruct Hin as [<-|[]]. simpl. lia.
  - apply in_map_iff in Hin as (x & <- & Hx).
    apply TextFacts.range_bounds in Hx. simpl. lia.
Qed.

Lemma main_no_devices env args t :
  discover_network_devices env (network args) (workers args) = (t, Ok []) ->
  main env args =
  (Print "Network Device Discovery Tool"
   :: Print "========================================"
   :: t ++ [Print "No network devices found with SSH enabled"], Ok tt)%list.
Proof.
  intros Hd. unfold main. rewrite Hd. reflexivity.
Qed.

Lemma main_raises env args t e :
  discover_network_devices env (network args) (workers args) = (t, Raise e) ->
  main env args =
  (Print "Network Device Discovery Tool"
   :: Print "========================================" :: t, Raise e).
Proof.
  intros Hd. unfold main. rewrite Hd. reflexivity.
Qed.

Lemma filter_map_none_write (l : list IPv4Address) :
  filter is_write (map Ping l) = [].
Proof. induction l as [|x l IH]; [reflexivity|exact IH]. Qed.

Lemma existsb_app_false {A} (f : A -> bool) l1 l2 :
  existsb f l1 = false -> existsb f l2 = false -> existsb f (l1 ++ l2) = false.
Proof. intros H1 H2. now rewrite existsb_app, H1, H2. Qed.

Lemma existsb_map_false {A B} (f : B -> bool) (g : A -> B) l :
  (forall x, f (g x) = false) -> existsb f (map g l) = false.
Proof.
  intros Hf. induction l as [|x l IH]; simpl; [reflexivity|now rewrite Hf, IH].
Qed.

(** C3 (as the code has it). A range text the parser rejects raises nothing:
    [discover_network_devices] prints the parser's message and returns the
    empty list without a single probe, and [main] then reports that no
    devices were found and returns normally, with exit status 0 and no file
    written. *)
Theorem invalid_range_returns_empty env args msg :
  ip_network env (network args) = inl msg ->
  discover_network_devices env (network args) (workers args) =
    ([Print ("Discovering devices in network range: " ++ network args);
      Print ("Invalid network range: " ++ msg)], Ok []) /\
  main env args =
    ([Print "Network Device Discovery Tool";
      Print "========================================";
      Print ("Discovering devices in network range: " ++ network args);
      Print ("Invalid network range: " ++ msg);
      Print "No network devices found with SSH enabled"], Ok tt) /\
  existsb is_probe (trace (main env args)) = false /\
  existsb is_write (trace (main env args)) = false /\
  exit_status (outcome (main env args)) = 0.
Proof.
  intros Hp. pose proof (discover_invalid env (network args) (workers args) Hp) as Hd.
  pose proof (main_no_devices env args Hd) as Hm. cbn [app] in Hm.
  split; [exact Hd|]. split; [exact Hm|]. rewrite Hm. repeat split.
Qed.

(** The unparsable range text "not-a-network": no exception leaves
    [discover_network_devices] or [main], and the process ends with
    status 0. *)
Lemma invalid_range_is_not_fatal :
  let env := Example.responders [] [] [] [] in
  ip_network env "not-a-network" =
    inl "'not-a-network' does not appear to be an IPv4 or IPv6 network" /\
  outcome (discover_network_devices env "not-a-network" 50) = Ok [] /\
  outcome (main env (Example.args "not-a-network" 50)) = Ok tt /\
  exit_status (outcome (main env (Example.args "not-a-network" 50))) = 0.
Proof. repeat split. Qed.

(** C4 (as the code has it). When a valid range yields no device, [main]
    prints "No network devices found with SSH enabled" and returns normally
    with exit status 0; it builds and writes no inventory and prints no
    device count. *)
Theorem no_devices_no_inventory env args n :
  fair env ->
  ip_network env (network args) = inr n ->
  2 <= workers args ->
  (forall a, In a (hosts n) -> ping_ok env a = false \/ ssh_ok env a = false) ->
  outcome (main env args) = Ok tt /\
  exit_status (outcome (main env args)) = 0 /\
  existsb is_write (trace (main env args)) = false /\
  last (trace (main env args)) (Print EmptyString) =
    Print "No network devices found with SSH enabled" /\
  In (Print "Found 0 hosts with SSH enabled") (trace (main env args)) /\
  (forall count, ~ In (Print ("Discovered " ++ count ++ " network devices"))
                      (trace (main env args))).
Proof.
  intros Hfair Hp Hw Hnone.
  assert (ssh_hosts env (workers args) n = []) as Hempty.
  { destruct (ssh_hosts env (workers args) n) as [|a l] eqn:E; [reflexivity|].
    assert (In a (ssh_hosts env (workers args) n)) as Hin by (rewrite E; now left).
    apply (in_ssh_hosts Hfair) in Hin as (Hin & Hping & Hssh).
    destruct (Hnone a Hin); congruence. }
  pose proof (discover_valid env (network args) Hp Hw) as Hd.
  rewrite Hempty in Hd. cbn [sorted fold_right] in Hd.
  pose proof (main_no_devices env args Hd) as Hm.
  rewrite Hm. cbn [outcome trace fst snd exit_status].
  split; [reflexivity|]. split; [reflexivity|].
  split.
  { cbn [existsb is_write orb]. apply existsb_app_false; [|reflexivity].
    cbn [app existsb is_write orb].
    apply existsb_app_false; [now apply existsb_map_false|].
    cbn [app existsb is_write orb].
    apply existsb_app_false; [now apply existsb_map_false|reflexivity]. }
  split.
  { rewrite !app_comm_cons. apply last_last. }
  split.
  { right. right. apply in_or_app. left.
    apply in_or_app. right. apply in_or_app. right. now left. }
  intros count [Hc|[Hc|Hc]]; [discriminate|discriminate|].
  apply in_app_or in Hc as [Hc|[Hc|[]]]; [|discriminate].
  apply in_app_or in Hc as [Hc|Hc].
  - destruct Hc as [Hc|Hc]; [discriminate|].
    apply in_map_iff in Hc as (x & Hx & _). discriminate.
  - apply in_app_or in Hc as [Hc|[Hc|[]]]; [|discriminate].
    destruct Hc as [Hc|Hc]; [discriminate|].
    apply in_map_iff in Hc as (x & Hx & _). discriminate.
Qed.

(** ** The fate of an address *)

(** The document has an entry under the canonical hostname of [a] in the
    leaf group [g]. *)
Definition placed_in (inventory : pyval) (a : IPv4Address) (g : string) : Prop :=
  Dict.get (hostname a) (leaf_hosts inventory g) <> None.

Definition excluded_not_live (env : Environment) (discovered : list IPv4Address)
  (inventory : pyval) (a : IPv4Address) : Prop :=
  ping_ok env a = false /\
  ~ In a discovered /\
  forall g, In g leaf_groups -> ~ placed_in inventory a g.

Definition excluded_service_closed (env : Environment) (discovered : list IPv4Address)
  (inventory : pyval) (a : IPv4Address) : Prop :=
  ping_ok env a = true /\ ssh_ok env a = false /\
  ~ In a discovered /\
  forall g, In g leaf_groups -> ~ placed_in inventory a g.

Definition placed_in_one_leaf (env : Environment) (discovered : list IPv4Address)
  (inventory : pyval) (a : IPv4Address) : Prop :=
  ping_ok env a = true /\ ssh_ok env a = true /\
  In a discovered /\
  Dict.get (hostname a) (leaf_hosts inventory (group_of a)) = Some (record_of a) /\
  forall g, In g leaf_groups -> placed_in inventory a g -> g = group_of a.

Lemma placed_in_iff l a g :
  Forall valid_ipv4 l -> valid_ipv4 a -> In g leaf_groups ->
  placed_in (inventory_of (placed l no_hosts)) a g <-> In a l /\ g = group_of a.
Proof.
  intros Hl Ha Hg. unfold placed_in.
  rewrite leaf_hosts_inventory_of by assumption.
  rewrite DictFacts.get_in_keys, placed_keys. split.
  - intros [[]|(b & Hb & Hgb & Hhb)].
    rewrite Forall_forall in Hl.
    apply hostname_inj in Hhb; [|now apply Hl|assumption].
    subst b. now split.
  - intros [Hin ->]. right. exists a. now repeat split.
Qed.

(** From two workers on, every address of the expanded range meets exactly
    one of three fates: it is dropped as not live, it is dropped because the
    service is closed, or it is returned by the discovery and placed in
    exactly one leaf group of the inventory built from the result. A ping
    that times out or fails to run makes the address not live, and a socket
    error makes the service closed; neither stops the pipeline, which
    returns a list and a tree. *)
Theorem every_address_has_one_fate env network_range n w fmt a :
  fair env ->
  valid_network n ->
  ip_network env network_range = inr n ->
  2 <= w ->
  In a (hosts n) ->
  exists discovered inventory,
    outcome (discover_network_devices env network_range w) = Ok discovered /\
    generate_inventory discovered fmt = Ok inventory /\
    (ping_run env a = TimeoutExpired \/ ping_run env a = RunError ->
       excluded_not_live env discovered inventory a) /\
    (ping_ok env a = true -> tcp_connect env a 22 = SocketError ->
       excluded_service_closed env discovered inventory a) /\
    ((excluded_not_live env discovered inventory a /\
      ~ excluded_service_closed env discovered inventory a /\
      ~ placed_in_one_leaf env discovered inventory a) \/
     (~ excluded_not_live env discovered inventory a /\
      excluded_service_closed env discovered inventory a /\
      ~ placed_in_one_leaf env discovered inventory a) \/
     (~ excluded_not_live env discovered inventory a /\
      ~ excluded_service_closed env discovered inventory a /\
      placed_in_one_leaf env discovered inventory a)).
Proof.
  intros Hfair Hvn Hp Hw Ha.
  set (discovered := sorted (ssh_hosts env w n)).
  exists discovered, (inventory_of (placed discovered no_hosts)).
  assert (forall b, In b discovered <->
            In b (hosts n) /\ ping_ok env b = true /\ ssh_ok env b = true) as Hdisc.
  { intros b. unfold discovered. rewrite <- (in_ssh_hosts Hfair). split.
    - apply Permutation_in, sorted_perm.
    - apply Permutation_in, Permutation_sym, sorted_perm. }
  assert (Forall valid_ipv4 discovered) as Hvd.
  { apply Forall_forall. intros b Hb. apply Hdisc in Hb as (Hb & _).
    now apply (@hosts_valid n). }
  pose proof (@hosts_valid n a Hvn Ha) as Hva.
  assert (forall g, In g leaf_groups ->
            placed_in (inventory_of (placed discovered no_hosts)) a g ->
            In a discovered /\ g = group_of a) as Hplaced.
  { intros g Hg Hpl. now apply (placed_in_iff Hvd Hva Hg). }
  assert (ping_ok env a = false ->
          excluded_not_live env discovered (inventory_of (placed discovered no_hosts)) a)
    as Hnl.
  { intros Hping. split; [exact Hping|]. split.
    - intros Hin. apply Hdisc in Hin as (_ & Hp1 & _). congruence.
    - intros g Hg Hpl. apply Hplaced in Hpl as [Hin _]; [|assumption].
      apply Hdisc in Hin as (_ & Hp1 & _). congruence. }
  assert (ping_ok env a = true -> ssh_ok env a = false ->
          excluded_service_closed env discovered
            (inventory_of (placed discovered no_hosts)) a) as Hsc.
  { intros Hping Hssh. split; [exact Hping|]. split; [exact Hssh|]. split.
    - intros Hin. apply Hdisc in Hin as (_ & _ & Hs1). congruence.
    - intros g Hg Hpl. apply Hplaced in Hpl as [Hin _]; [|assumption].
      apply Hdisc in Hin as (_ & _ & Hs1). congruence. }
  split.
  { rewrite (discover_valid env network_range Hp Hw). reflexivity. }
  split; [apply generate_inventory_ipv4|].
  split.
  { intros Hout. apply Hnl. unfold ping_ok. destruct Hout as [-> | ->]; reflexivity. }
  split.
  { intros Hping Hsock. apply Hsc; [exact Hping|]. unfold ssh_ok. now rewrite Hsock. }
  destruct (ping_ok env a) eqn:Hping; [destruct (ssh_ok env a) eqn:Hssh|].
  - right. right. split; [|split].
    + intros (Hc & _). congruence.
    + intros (_ & Hc & _). congruence.
    + assert (In a discovered) as Hin by (apply Hdisc; now repeat split).
      split; [exact Hping|]. split; [exact Hssh|]. split; [exact Hin|]. split.
      * rewrite leaf_hosts_inventory_of by apply group_of_leaf.
        now apply placed_record.
      * intros g Hg Hpl. now apply Hplaced in Hpl as [_ ->].
  - right. left. split; [|split].
    + intros (Hc & _). congruence.
    + now apply Hsc.
    + intros (_ & Hc & _). congruence.
  - left. split; [|split].
    + now apply Hnl.
    + intros (Hc & _). congruence.
    + intros (Hc & _). congruence.
Qed.

(** C9. For every range text and every behaviour of the responders,
    [discover_network_devices] returns the addresses that passed both probe
    phases in ascending order: the result is the sorted sequence of those
    addresses, whatever order the probes completed in. *)
Theorem discover_returns_sorted env network_range w :
  fair env ->
  2 <= w ->
  let passed :=
    filter (fun a => ping_ok env a && ssh_ok env a) (expand env network_range) in
  outcome (discover_network_devices env network_range w) = Ok (sorted passed) /\
  StronglySorted ip_le (sorted passed) /\
  Permutation (sorted passed) passed.
Proof.
  intros Hfair Hw passed. split; [|split].
  - unfold passed, expand.
    destruct (ip_network env network_range) as [msg|n] eqn:Hp.
    + now rewrite (discover_invalid env network_range w Hp).
    + rewrite (discover_valid env network_range Hp Hw). cbn [outcome snd].
      now rewrite (sorted_ssh_hosts Hfair).
  - apply sorted_ordered.
  - apply sorted_perm.
Qed.

(** C7 (what the code does). With a worker count of 1 no address of the
    range gets a fate. Every address is pinged, then the pool of the service
    phase is created with [1 // 2 = 0] workers and its constructor raises:
    no connection is attempted, the discovery returns no list, [main] builds
    no tree and touches no file, and the run ends with the [ValueError] and
    exit status 1. An address that answered the ping is thus neither
    excluded as not live, nor excluded as service closed, nor placed. *)
Theorem one_worker_gives_no_fate env args n a :
  fair env ->
  ip_network env (network args) = inr n ->
  workers args = 1 ->
  In a (hosts n) ->
  In (Ping a) (trace (main env args)) /\
  (forall b port, ~ In (Connect b port) (trace (main env args))) /\
  filter is_write (trace (main env args)) = [] /\
  outcome (discover_network_devices env (network args) (workers args)) =
    Raise ValueError /\
  outcome (main env args) = Raise ValueError /\
  exit_status (outcome (main env args)) = 1.
Proof.
  intros Hfair Hp Hw Ha.
  pose proof (discover_one_worker env (network args) Hp) as Hd.
  rewrite <- Hw in Hd at 1.
  rewrite (main_raises env args Hd), Hd. cbn [trace outcome fst snd exit_status].
  split; [|split; [|split; [|repeat split]]].
  - right. right. apply in_or_app. left. right. apply in_map.
    apply (Permutation_in a (Permutation_sym (Hfair 1 (hosts n))) Ha).
  - intros b port [Hin|[Hin|Hin]]; try discriminate.
    apply in_app_or in Hin as [[Hin|Hin]|[Hin|[]]]; try discriminate.
    apply in_map_iff in Hin as (x & Hx & _). discriminate.
  - cbn [filter is_write]. rewrite filter_app. cbn [filter is_write].
    now rewrite filter_map_none_write.
Qed.

(** C8 (what the code does). With a worker count of 1 the second pool is
    created with [1 // 2 = 0] workers and its constructor raises, so the
    discovery returns no address set at all, while with 50 workers it
    returns one. *)
Theorem one_worker_raises env network_range n :
  ip_network env network_range = inr n ->
  outcome (discover_network_devices env network_range 1) = Raise ValueError /\
  exists found,
    outcome (discover_network_devices env network_range 50) = Ok found.
Proof.
  intros Hp. split.
  - now rewrite (discover_one_worker env network_range Hp).
  - eexists. rewrite (discover_valid env network_range Hp) by lia. reflexivity.
Qed.

Lemma discover_no_workers env network_range n w :
  ip_network env network_range = inr n ->
  w <= 0 ->
  discover_network_devices env network_range w =
  ([Print ("Discovering devices in network range: " ++ network_range)],
   Raise ValueError).
Proof.
  intros Hp Hw. unfold discover_network_devices. rewrite Hp.
  rewrite probe_phase_raises by exact Hw. reflexivity.
Qed.

(** X1. From two workers on, the worker count does not influence the result
    of the discovery: two runs over the same responders return the same
    list, whatever order each pool completed its probes in. *)
Lemma worker_count_irrelevant env network_range w1 w2 :
  fair env -> 2 <= w1 -> 2 <= w2 ->
  outcome (discover_network_devices env network_range w1) =
  outcome (discover_network_devices env network_range w2).
Proof.
  intros Hfair H1 H2.
  destruct (ip_network env network_range) as [msg|n] eqn:Hp.
  - now rewrite !(discover_invalid env network_range _ Hp).
  - rewrite (discover_valid env network_range Hp H1).
    rewrite (discover_valid env network_range Hp H2). cbn [outcome snd].
    now rewrite !(sorted_ssh_hosts Hfair).
Qed.

(* ===================================================================== *)
(** * Concrete runs                                                       *)
(* ===================================================================== *)

(** 192.168.1.5 is a Cisco router. *)
Lemma classify_device_type_bins_witness :
  1 <= octet 0 (IPv4 3232235781) <= 10 /\
  classify_device_type (IPv4 3232235781) = Some ("cisco_routers", "ios").
Proof.
  assert (1 <= octet 0 (IPv4 3232235781) <= 10) as Ho by (vm_compute; split; discriminate).
  split; [exact Ho|].
  exact (proj1 (classify_device_type_bins (IPv4 3232235781)) Ho).
Defined.


Lemma invalid_range_returns_empty_witness :
  ip_network (Example.responders [] [] [] []) (network (Example.args "not-a-network" 50)) =
    inl "'not-a-network' does not appear to be an IPv4 or IPv6 network" /\
  exit_status (outcome (main (Example.responders [] [] [] [])
                             (Example.args "not-a-network" 50))) = 0.
Proof.
  split; [reflexivity|].
  exact (proj2 (proj2 (proj2 (proj2
    (@invalid_range_returns_empty (Example.responders [] [] [] [])
       (Example.args "not-a-network" 50) _ eq_refl))))).
Defined.

Lemma quiet_network (a : IPv4Address) :
  ping_ok (Example.responders [] [] [] []) a = false \/
  ssh_ok (Example.responders [] [] [] []) a = false.
Proof. left. reflexivity. Qed.

Lemma no_devices_no_inventory_witness :
  2 <= workers (Example.args "203.0.113.0/30" 50) /\
  outcome (main (Example.responders [] [] [] []) (Example.args "203.0.113.0/30" 50)) = Ok tt.
Proof.
  assert (2 <= workers (Example.args "203.0.113.0/30" 50)) as Hw by (simpl; lia).
  split; [exact Hw|].
  exact (proj1 (@no_devices_no_inventory (Example.responders [] [] [] [])
    (Example.args "203.0.113.0/30" 50) _
    (Example.responders_fair [] [] [] []) example_parse_30 Hw
    (fun a _ => quiet_network a))).
Defined.

(** The range 203.0.113.0/30 with no responder: both addresses are pinged,
    nothing is written and no device count is printed. *)
Lemma empty_result_writes_nothing :
  let run := main (Example.responders [] [] [] []) (Example.args "203.0.113.0/30" 50) in
  trace run =
    [Print "Network Device Discovery Tool";
     Print "========================================";
     Print "Discovering devices in network range: 203.0.113.0/30";
     Ping (IPv4 3405803778);
     Ping (IPv4 3405803777);
     Print "Found 0 responding hosts";
     Print "Found 0 hosts with SSH enabled";
     Print "No network devices found with SSH enabled"] /\
  outcome run = Ok tt /\
  existsb is_write (trace run) = false /\
  ~ In (Print "Discovered 0 network devices") (trace run).
Proof.
  split; [reflexivity|]. split; [reflexivity|]. split; [reflexivity|].
  cbv. intros H. repeat (destruct H as [H|H]; [discriminate H|]). exact H.
Qed.

Lemma example_network_valid :
  valid_network {| network_address := 3405803776; prefixlen := 30 |}.
Proof. unfold valid_network. simpl. lia. Qed.

(** 203.0.113.1 answers and accepts, 203.0.113.2 lets the ping time out. *)
Lemma every_address_has_one_fate_witness :
  2 <= 50 /\
  In (IPv4 3405803777) (hosts {| network_address := 3405803776; prefixlen := 30 |}) /\
  exists discovered,
    outcome (discover_network_devices
               (Example.responders [3405803777] [3405803778] [3405803777] [])
               "203.0.113.0/30" 50) = Ok discovered.
Proof.
  assert (2 <= 50) as Hw by lia.
  assert (In (IPv4 3405803777)
            (hosts {| network_address := 3405803776; prefixlen := 30 |})) as Hin
    by (left; reflexivity).
  split; [exact Hw|]. split; [exact Hin|].
  destruct (@every_address_has_one_fate
              (Example.responders [3405803777] [3405803778] [3405803777] [])
              "203.0.113.0/30" _ 50 yaml (IPv4 3405803777)
              (Example.responders_fair _ _ _ _) example_network_valid
              example_parse_30 Hw Hin) as (d & _ & Hd & _).
  exists d. exact Hd.
Defined.

(** 203.0.113.1 answers the ping and would accept the connection; with one
    worker it is pinged and the run then ends with the exception. *)
Lemma one_worker_gives_no_fate_witness :
  workers (Example.args "203.0.113.0/30" 1) = 1 /\
  In (IPv4 3405803777) (hosts {| network_address := 3405803776; prefixlen := 30 |}) /\
  ping_ok (Example.responders [3405803777] [] [3405803777] []) (IPv4 3405803777) = true /\
  ssh_ok (Example.responders [3405803777] [] [3405803777] []) (IPv4 3405803777) = true /\
  In (Ping (IPv4 3405803777))
     (trace (main (Example.responders [3405803777] [] [3405803777] [])
                  (Example.args "203.0.113.0/30" 1))) /\
  outcome (main (Example.responders [3405803777] [] [3405803777] [])
                (Example.args "203.0.113.0/30" 1)) = Raise ValueError.
Proof.
  assert (workers (Example.args "203.0.113.0/30" 1) = 1) as Hw by reflexivity.
  assert (In (IPv4 3405803777)
            (hosts {| network_address := 3405803776; prefixlen := 30 |})) as Hin
    by (left; reflexivity).
  split; [exact Hw|]. split; [exact Hin|].
  split; [reflexivity|]. split; [reflexivity|].
  destruct (@one_worker_gives_no_fate
              (Example.responders [3405803777] [] [3405803777] [])
              (Example.args "203.0.113.0/30" 1) _ (IPv4 3405803777)
              (Example.responders_fair _ _ _ _) example_parse_30 Hw Hin)
    as (Hping & _ & _ & _ & Hmain & _).
  split; [exact Hping|exact Hmain].
Defined.

Lemma discover_returns_sorted_witness :
  2 <= 50 /\
  outcome (discover_network_devices
             (Example.responders [3405803777; 3405803778] [] [3405803777; 3405803778] [])
             "203.0.113.0/30" 50) =
  Ok (sorted (filter
        (fun a => ping_ok (Example.responders [3405803777; 3405803778] []
                             [3405803777; 3405803778] []) a &&
                  ssh_ok (Example.responders [3405803777; 3405803778] []
                            [3405803777; 3405803778] []) a)
        (expand (Example.responders [3405803777; 3405803778] []
                   [3405803777; 3405803778] []) "203.0.113.0/30"))).
Proof.
  assert (2 <= 50) as Hw by lia.
  split; [exact Hw|].
  exact (proj1 (@discover_returns_sorted
    (Example.responders [3405803777; 3405803778] [] [3405803777; 3405803778] [])
    "203.0.113.0/30" 50 (Example.responders_fair _ _ _ _) Hw)).
Defined.

Lemma one_worker_raises_witness :
  ip_network (Example.responders [3405803777] [] [3405803777] []) "203.0.113.0/30" =
    inr {| network_address := 3405803776; prefixlen := 30 |} /\
  outcome (discover_network_devices
             (Example.responders [3405803777] [] [3405803777] [])
             "203.0.113.0/30" 1) = Raise ValueError.
Proof.
  split; [reflexivity|].
  exact (proj1 (@one_worker_raises
    (Example.responders [3405803777] [] [3405803777] []) "203.0.113.0/30" _
    example_parse_30)).
Defined.

(** A run with one worker against a run with fifty, same responders. *)
Lemma one_worker_against_fifty :
  let env := Example.responders [3405803777] [] [3405803777] [] in
  outcome (discover_network_devices env "203.0.113.0/30" 1) = Raise ValueError /\
  outcome (discover_network_devices env "203.0.113.0/30" 50) = Ok [IPv4 3405803777] /\
  exit_status (outcome (main env (Example.args "203.0.113.0/30" 1))) = 1.
Proof. repeat split. Qed.

(* ===================================================================== *)
(** * Overlay groups                                                      *)
(* ===================================================================== *)

(** ** Reading the static document line by line *)

Fixpoint indent (s : string) : nat :=
  match s with
  | String " " t => S (indent t)
  | _ => 0%nat
  end.

Fixpoint drop_spaces (s : string) : string :=
  match s with
  | String " " t => drop_spaces t
  | _ => s
  end.

Definition blank (s : string) : bool := String.eqb (drop_spaces s) EmptyString.

(** The lines below a key: all following lines that are not blank and are
    indented deeper than [depth]. *)
Fixpoint take_block (depth : nat) (lines : list string) : list string :=
  match lines with
  | [] => []
  | l :: rest =>
      if blank l || (indent l <=? depth)%nat then []
      else l :: take_block depth rest
  end.

(** The block below the first line equal to [key]. *)
Fixpoint block_of (key : string) (lines : list string) : option (list string) :=
  match lines with
  | [] => None
  | l :: rest =>
      if String.eqb l key then Some (take_block (indent key) rest)
      else block_of key rest
  end.

(** The names of the child groups of the root of a built tree. *)
Definition root_children (inventory : pyval) : list string :=
  match getitem_at ["all"; "children"] inventory with
  | Ok (PDict d) => Dict.keys d
  | _ => []
  end.

Lemma document_lines :
  PyText.split (ascii_of_nat 10) CompleteInventory.generate_complete_inventory =
  (CompleteInventory.inventory_lines ++ [EmptyString])%list.
Proof. vm_compute. reflexivity. Qed.

Lemma root_children_inventory_of leaf :
  root_children (inventory_of leaf) =
  ["cisco_devices"; "palo_alto_devices"; "fortinet_devices"; "juniper_devices";
   "arista_devices"; "unknown_devices"].
Proof. reflexivity. Qed.

Definition overlay_names : list string :=
  ["all_switches"; "all_routers"; "all_firewalls"; "production"].

(** C6 (as the code has it). The discovery builder constructs no overlay
    group: the root of every built tree has exactly the six children
    cisco_devices, palo_alto_devices, fortinet_devices, juniper_devices,
    arista_devices and unknown_devices, and a lookup of all_switches,
    all_routers, all_firewalls or production under the root fails. Overlay
    groups exist only in the static enterprise document, where each of them
    is a list of references to group names and holds no host entry;
    all_switches lists cisco_devices:cisco_switches and
    arista_devices:arista_switches. *)
Theorem overlay_groups_only_in_static_document (l : list IPv4Address) (fmt : output_format) :
  (exists inventory,
     generate_inventory l fmt = Ok inventory /\
     root_children inventory =
       ["cisco_devices"; "palo_alto_devices"; "fortinet_devices"; "juniper_devices";
        "arista_devices"; "unknown_devices"] /\
     forall o, In o overlay_names ->
       getitem_at ["all"; "children"; o] inventory = Raise KeyError) /\
  block_of "    all_switches:" CompleteInventory.inventory_lines =
    Some ["      children:";
          "        - cisco_devices:cisco_switches";
          "        - arista_devices:arista_switches"] /\
  block_of "    all_routers:" CompleteInventory.inventory_lines =
    Some ["      children:";
          "        - cisco_devices:cisco_routers";
          "        - juniper_devices:juniper_routers"] /\
  block_of "    all_firewalls:" CompleteInventory.inventory_lines =
    Some ["      children:";
          "        - palo_alto_devices:palo_alto_firewalls";
          "        - fortinet_devices:fortinet_firewalls"] /\
  block_of "    production:" CompleteInventory.inventory_lines =
    Some ["      children:";
          "        - cisco_devices";
          "        - arista_devices";
          "        - juniper_devices";
          "        - palo_alto_devices";
          "        - fortinet_devices"].
Proof.
  split.
  - exists (inventory_of (placed l no_hosts)).
    split; [apply generate_inventory_ipv4|].
    split; [apply root_children_inventory_of|].
    unfold overlay_names. simpl.
    intros o [<-|[<-|[<-|[<-|[]]]]]; reflexivity.
  - repeat split; vm_compute; reflexivity.
Qed.

(** A tree built from a Cisco switch (192.168.1.25) and an Arista switch
    (192.168.1.35) has both leaf entries and no group all_switches. *)
Lemma built_tree_has_no_overlay :
  exists inventory,
    generate_inventory [IPv4 3232235801; IPv4 3232235811] yaml = Ok inventory /\
    Dict.keys (leaf_hosts inventory "cisco_switches") = ["device-192-168-1-25"] /\
    Dict.keys (leaf_hosts inventory "arista_switches") = ["device-192-168-1-35"] /\
    getitem_at ["all"; "children"; "all_switches"] inventory = Raise KeyError /\
    root_children inventory =
      ["cisco_devices"; "palo_alto_devices"; "fortinet_devices"; "juniper_devices";
       "arista_devices"; "unknown_devices"].
Proof.
  eexists. split; [reflexivity|]. repeat split; vm_compute; reflexivity.
Qed.

(* ===================================================================== *)
(** * Further properties of the discovery                                 *)
(* ===================================================================== *)

Lemma worker_count_irrelevant_witness :
  2 <= 2 /\ 2 <= 50 /\
  outcome (discover_network_devices
             (Example.responders [3405803777; 3405803778] [] [3405803778] [])
             "203.0.113.0/30" 2) =
  outcome (discover_network_devices
             (Example.responders [3405803777; 3405803778] [] [3405803778] [])
             "203.0.113.0/30" 50).
Proof.
  assert (2 <= 2) as H2 by lia. assert (2 <= 50) as H50 by lia.
  split; [exact H2|]. split; [exact H50|].
  exact (@worker_count_irrelevant
    (Example.responders [3405803777; 3405803778] [] [3405803778] [])
    "203.0.113.0/30" 2 50 (Example.responders_fair _ _ _ _) H2 H50).
Defined.

(** X2. A worker count that is not positive makes the constructor of the
    first pool raise: the discovery of a valid range ends with [ValueError]
    after its first line of output, before any probe. *)
Theorem no_workers_no_probe env network_range n w :
  ip_network env network_range = inr n ->
  w <= 0 ->
  discover_network_devices env network_range w =
  ([Print ("Discovering devices in network range: " ++ network_range)],
   Raise ValueError).
Proof. apply discover_no_workers. Qed.

Lemma no_workers_no_probe_witness :
  0 <= 0 /\
  trace (discover_network_devices (Example.responders [3405803777] [] [] [])
           "203.0.113.0/30" 0) =
  [Print "Discovering devices in network range: 203.0.113.0/30"].
Proof.
  assert (0 <= 0) as H0 by lia. split; [exact H0|].
  exact (f_equal fst (@no_workers_no_probe
    (Example.responders [3405803777] [] [] []) "203.0.113.0/30" _ 0
    example_parse_30 H0)).
Defined.

Lemma filter_map_all {A B} (f : B -> bool) (g : A -> B) l :
  (forall x, f (g x) = true) -> filter f (map g l) = map g l.
Proof.
  intros Hf. induction l as [|x l IH]; simpl; [reflexivity|now rewrite Hf, IH].
Qed.

Lemma filter_map_none {A B} (f : B -> bool) (g : A -> B) l :
  (forall x, f (g x) = false) -> filter f (map g l) = [].
Proof.
  intros Hf. induction l as [|x l IH]; simpl; [reflexivity|now rewrite Hf, IH].
Qed.

(** X3. With a worker count of two or more, the probes of a run come in
    two phases: first one ping for every address of the range, each exactly
    once, then one connection attempt on port 22 for every address that
    answered the ping, each exactly once and for no other address. *)
Theorem probes_in_two_phases env network_range n w :
  fair env ->
  ip_network env network_range = inr n ->
  2 <= w ->
  exists pinged connected,
    filter is_probe (trace (discover_network_devices env network_range w)) =
      (map Ping pinged ++ map (fun ip => Connect ip 22) connected)%list /\
    Permutation pinged (hosts n) /\
    Permutation connected (filter (ping_ok env) (hosts n)).
Proof.
  intros Hfair Hp Hw.
  exists (as_completed env w (hosts n)),
         (as_completed env (w / 2) (live_hosts env w n)).
  split; [|split].
  - rewrite (discover_valid env network_range Hp Hw). cbn [trace fst].
    rewrite !filter_app. cbn [filter is_probe].
    rewrite !filter_map_all by reflexivity.
    now rewrite app_nil_r.
  - apply Hfair.
  - rewrite (Hfair (w / 2) _). unfold live_hosts.
    apply filter_perm, Hfair.
Qed.

Lemma probes_in_two_phases_witness :
  2 <= 50 /\
  exists pinged connected,
    filter is_probe (trace (discover_network_devices
        (Example.responders [3405803777] [3405803778] [] [3405803777])
        "203.0.113.0/30" 50)) =
      (map Ping pinged ++ map (fun ip => Connect ip 22) connected)%list /\
    Permutation pinged (hosts {| network_address := 3405803776; prefixlen := 30 |}) /\
    Permutation connected
      (filter (ping_ok (Example.responders [3405803777] [3405803778] [] [3405803777]))
         (hosts {| network_address := 3405803776; prefixlen := 30 |})).
Proof.
  assert (2 <= 50) as Hw by lia. split; [exact Hw|].
  exact (@probes_in_two_phases
    (Example.responders [3405803777] [3405803778] [] [3405803777])
    "203.0.113.0/30" _ 50 (Example.responders_fair _ _ _ _) example_parse_30 Hw).
Defined.

(** ** [main] after a successful discovery *)

Lemma discover_writes_nothing env network_range w :
  filter is_write (trace (discover_network_devices env network_range w)) = [].
Proof.
  destruct (ip_network env network_range) as [msg|n] eqn:Hp.
  - now rewrite (discover_invalid env network_range w Hp).
  - destruct (Z.le_gt_cases w 0) as [H0|H0].
    + now rewrite (discover_no_workers env network_range Hp H0).
    + destruct (Z.le_gt_cases 2 w) as [H2|H2].
      * rewrite (discover_valid env network_range Hp H2). cbn [trace fst].
        rewrite !filter_app. cbn [filter is_write].
        now rewrite !filter_map_none by reflexivity.
      * assert (w = 1) as -> by lia.
        rewrite (discover_one_worker env network_range Hp). cbn [trace fst].
        rewrite !filter_app. cbn [filter is_write].
        now rewrite !filter_map_none by reflexivity.
Qed.

Definition success_report (output_path : string) (count : Z) : list event :=
  [Print (nl ++ "Inventory file created: " ++ output_path);
   Print ("Discovered " ++ PyText.str_int count ++ " network devices");
   Print (nl ++ "Next steps:");
   Print "1. Review and customize the generated inventory file";
   Print "2. Update device credentials in vault/secrets.yml";
   Print "3. Test connectivity with ansible all -m ping";
   Print "4. Customize device classifications as needed"].

Definition write_report (env : Environment) (output_path : string)
    (fmt : output_format) (inventory : pyval) (count : Z) : list event :=
  match open_error env output_path with
  | Some e => [Print ("Error writing inventory file: " ++ e)]
  | None =>
      OpenFile output_path ::
      match dump_error env output_path fmt inventory with
      | Some e => [Print ("Error writing inventory file: " ++ e)]
      | None => WriteFile output_path fmt inventory :: success_report output_path count
      end
  end.

Lemma main_devices env args t d ds :
  discover_network_devices env (network args) (workers args) = (t, Ok (d :: ds)) ->
  main env args =
  (Print "Network Device Discovery Tool"
   :: Print "========================================"
   :: t ++
      write_report env (path_text env (output args)) (format args)
        (inventory_of (placed (d :: ds) no_hosts)) (len (d :: ds)), Ok tt)%list.
Proof.
  intros Hd. unfold main, write_report. rewrite Hd. unfold print, emit.
  cbn [io_bind app].
  rewrite generate_inventory_ipv4. unfold lift. cbn [io_bind app].
  destruct (open_error env (path_text env (output args))); [reflexivity|].
  cbn [io_bind app].
  destruct (dump_error env (path_text env (output args)) (format args)
              (inventory_of (placed (d :: ds) no_hosts))); reflexivity.
Qed.

(** X4. With a worker count of two or more and a discovery that returns at
    least one address, [main] builds the inventory of the sorted result and
    then opens the output file for writing. If [open] raises, the trace has
    no file event and the last line is the error message. If [open] succeeds
    the file has been created or emptied; when the dump then raises, the
    opening is the only file event (the file is left empty or partial) and
    the last line is the error message; when the dump succeeds, the trace
    has the opening followed by the one write of that inventory, and the
    device count is printed. In all three cases [main] returns normally, so
    the exit status is 0 even after a failed write. *)
Theorem main_writes_discovered env args n :
  fair env ->
  ip_network env (network args) = inr n ->
  2 <= workers args ->
  sorted (filter (fun a => ping_ok env a && ssh_ok env a) (hosts n)) <> [] ->
  let discovered :=
    sorted (filter (fun a => ping_ok env a && ssh_ok env a) (hosts n)) in
  let output_path := path_text env (output args) in
  exists inventory,
    generate_inventory discovered (format args) = Ok inventory /\
    outcome (main env args) = Ok tt /\
    exit_status (outcome (main env args)) = 0 /\
    match open_error env output_path with
    | Some e =>
        filter is_write (trace (main env args)) = [] /\
        last (trace (main env args)) (Print EmptyString) =
          Print ("Error writing inventory file: " ++ e)
    | None =>
        match dump_error env output_path (format args) inventory with
        | Some e =>
            filter is_write (trace (main env args)) = [OpenFile output_path] /\
            last (trace (main env args)) (Print EmptyString) =
              Print ("Error writing inventory file: " ++ e)
        | None =>
            filter is_write (trace (main env args)) =
              [OpenFile output_path; WriteFile output_path (format args) inventory] /\
            In (Print ("Discovered " ++ PyText.str_int (len discovered) ++ " network devices"))
               (trace (main env args))
        end
    end.
Proof.
  intros Hfair Hp Hw Hne. cbv zeta.
  pose proof (discover_valid env (network args) Hp Hw) as Hd.
  rewrite (sorted_ssh_hosts Hfair) in Hd.
  remember (sorted (filter (fun a => ping_ok env a && ssh_ok env a) (hosts n)))
    as discovered eqn:Edisc.
  exists (inventory_of (placed discovered no_hosts)).
  split; [apply generate_inventory_ipv4|].
  pose proof (discover_writes_nothing env (network args) (workers args)) as Hnw.
  rewrite Hd in Hnw. cbn [trace fst] in Hnw.
  destruct discovered as [|d ds]; [contradiction|].
  rewrite (main_devices env args Hd). cbn [outcome trace fst snd exit_status].
  split; [reflexivity|]. split; [reflexivity|].
  unfold write_report.
  destruct (open_error env (path_text env (output args))) as [e|].
  - split.
    + cbn [filter is_write]. rewrite filter_app, Hnw. reflexivity.
    + rewrite !app_comm_cons. apply last_last.
  - destruct (dump_error env (path_text env (output args)) (format args)
                (inventory_of (placed (d :: ds) no_hosts))) as [e|].
    + split.
      * cbn [filter is_write]. rewrite filter_app, Hnw. reflexivity.
      * change (OpenFile (path_text env (output args))
                :: [Print ("Error writing inventory file: " ++ e)])
          with ([OpenFile (path_text env (output args))]
                ++ [Print ("Error writing inventory file: " ++ e)])%list.
        rewrite app_assoc, !app_comm_cons. apply last_last.
    + split.
      * cbn [filter is_write]. rewrite filter_app, Hnw. reflexivity.
      * right. right. apply in_or_app. right. right. right.
        unfold success_report. right. left. reflexivity.
Qed.

(** A run in which the dump raises after the file has been opened: the
    file has been created or emptied, no document has been written, and the
    exit status is 0. *)
Lemma main_writes_discovered_witness :
  2 <= workers (Example.args "203.0.113.0/30" 50) /\
  filter is_write
    (trace (main (Example.with_failing_dump
                    (Example.responders [3405803777] [] [3405803777] []) "disk full")
                 (Example.args "203.0.113.0/30" 50))) =
    [OpenFile "discovered_inventory.yml"] /\
  last (trace (main (Example.with_failing_dump
                       (Example.responders [3405803777] [] [3405803777] []) "disk full")
                    (Example.args "203.0.113.0/30" 50))) (Print EmptyString) =
    Print "Error writing inventory file: disk full" /\
  exit_status (outcome (main (Example.with_failing_dump
                                (Example.responders [3405803777] [] [3405803777] [])
                                "disk full")
                             (Example.args "203.0.113.0/30" 50))) = 0.
Proof.
  assert (2 <= workers (Example.args "203.0.113.0/30" 50)) as Hw by (simpl; lia).
  split; [exact Hw|].
  assert (sorted (filter
            (fun a =>
               ping_ok (Example.with_failing_dump
                          (Example.responders [3405803777] [] [3405803777] [])
                          "disk full") a &&
               ssh_ok (Example.with_failing_dump
                         (Example.responders [3405803777] [] [3405803777] [])
                         "disk full") a)
            (hosts {| network_address := 3405803776; prefixlen := 30 |})) <> []) as Hne
    by discriminate.
  destruct (@main_writes_discovered
              (Example.with_failing_dump
                 (Example.responders [3405803777] [] [3405803777] []) "disk full")
              (Example.args "203.0.113.0/30" 50) _
              (Example.responders_fair [3405803777] [] [3405803777] [])
              example_parse_30 Hw Hne)
    as (inv & _ & _ & Hexit & Hfile & Hlast).
  split; [exact Hfile|]. split; [exact Hlast|]. exact Hexit.
Defined.

(* ===================================================================== *)
(** * Further properties of the builder                                   *)
(* ===================================================================== *)

Lemma classify_leaf {A} `{PyStr A} (ip : A) g os :
  classify_device_type ip = Some (g, os) -> In g leaf_groups.
Proof.
  unfold classify_device_type.
  destruct (PyText.int (PyText.last_item (PyText.split "." (py_str ip)))) as [v|];
    [|discriminate].
  intros Heq. injection Heq as Heq.
  pose proof (bin_of_octet_leaf v) as Hin. unfold bin_of_octet in Hin.
  now rewrite Heq in Hin.
Qed.

Lemma place_hosts_any {A} `{PyStr A} (l : list A) leaf :
  (exists leaf', place_hosts l (inventory_of leaf) = Ok (inventory_of leaf')) \/
  (place_hosts l (inventory_of leaf) = Raise ValueError /\
   exists ip, In ip l /\ classify_device_type ip = None).
Proof.
  revert leaf. induction l as [|ip l IH]; intros leaf; cbn [place_hosts].
  - left. now exists leaf.
  - unfold place_host.
    destruct (classify_device_type ip) as [[g os]|] eqn:Hc; cbn [of_option bind].
    + rewrite (setitem_at_leaf _ _ _ (classify_leaf ip Hc)). cbn [bind].
      destruct (IH (with_host g (hostname ip) (PDict (device_config ip os)) leaf))
        as [Hok|(Hr & x & Hx & Hcx)].
      * now left.
      * right. split; [exact Hr|]. exists x. split; [now right|exact Hcx].
    + right. split; [reflexivity|]. exists ip. split; [now left|exact Hc].
Qed.

(** X5. Whatever the elements of the input list are, the build either
    returns a tree with the fixed group skeleton or raises [ValueError], and
    it raises only when the classifier rejects one of the elements; a missing
    key can never occur. *)
Theorem generate_inventory_total_or_value_error {A} `{PyStr A}
  (l : list A) (fmt : output_format) :
  (exists leaf, generate_inventory l fmt = Ok (inventory_of leaf)) \/
  (generate_inventory l fmt = Raise ValueError /\
   exists ip, In ip l /\ classify_device_type ip = None).
Proof.
  unfold generate_inventory. rewrite empty_inventory_skeleton.
  apply place_hosts_any.
Qed.

Lemma split_app c s t :
  PyText.split c (s ++ String c t) = (PyText.split c s ++ PyText.split c t)%list.
Proof.
  induction s as [|x s IH]; cbn [append PyText.split].
  - now rewrite Ascii.eqb_refl.
  - destruct (Ascii.eqb x c); rewrite IH; [reflexivity|].
    destruct (PyText.split c s) as [|h r] eqn:E; [|reflexivity].
    now apply TextFacts.split_nonempty in E.
Qed.

Lemma place_hosts_rejects {A} `{PyStr A} (l : list A) (ip : A) leaf :
  In ip l -> classify_device_type ip = None ->
  place_hosts l (inventory_of leaf) = Raise ValueError.
Proof.
  intros Hin Hc.
  destruct (place_hosts_any l leaf) as [[leaf' Hok]|[Hr _]]; [|exact Hr].
  exfalso. revert leaf leaf' Hok.
  induction l as [|x l IH]; intros leaf leaf' Hok; [contradiction|].
  cbn [place_hosts] in Hok. unfold place_host in Hok.
  destruct (classify_device_type x) as [[g os]|] eqn:Hx; cbn [of_option bind] in Hok;
    [|discriminate].
  destruct Hin as [->|Hin]; [congruence|].
  rewrite (setitem_at_leaf _ _ _ (classify_leaf x Hx)) in Hok. cbn [bind] in Hok.
  exact (IH Hin _ _ Hok).
Qed.

Lemma classify_trailing_dot (s : string) :
  classify_device_type (s ++ ".") = None.
Proof.
  unfold classify_device_type, py_str, string_str.
  rewrite split_app. cbn [PyText.split]. unfold PyText.last_item.
  rewrite last_last. reflexivity.
Qed.

(** X6. A text that ends with a dot has an empty last segment: the
    classifier fails on it, and every build whose input list holds such a
    text, at any position and among any other elements, raises
    [ValueError]. *)
Theorem trailing_dot_is_rejected (s : string) (l : list string) (fmt : output_format) :
  In (s ++ ".") l ->
  classify_device_type (s ++ ".") = None /\
  generate_inventory l fmt = Raise ValueError.
Proof.
  intros Hin. split; [apply classify_trailing_dot|].
  unfold generate_inventory. rewrite empty_inventory_skeleton.
  exact (@place_hosts_rejects _ _ l (s ++ ".") _ Hin (classify_trailing_dot s)).
Qed.

Lemma trailing_dot_is_rejected_witness :
  In ("10.0.0" ++ ".") ["10.0.0.5"; "10.0.0."; "10.0.0.7"] /\
  generate_inventory ["10.0.0.5"; "10.0.0."; "10.0.0.7"] json = Raise ValueError.
Proof.
  assert (In ("10.0.0" ++ ".") ["10.0.0.5"; "10.0.0."; "10.0.0.7"]) as Hin
    by (right; left; reflexivity).
  split; [exact Hin|].
  exact (proj2 (@trailing_dot_is_rejected "10.0.0" _ json Hin)).
Defined.

Lemma ansible_host_kept {A} `{PyStr A} (ip : A) os :
  Dict.get "ansible_host" (device_config ip os) = Some (PStr (py_str ip)) /\
  Dict.get "device_role" (device_config ip os) = Some (PStr "auto_discovered") /\
  Dict.get "site" (device_config ip os) = Some (PStr "discovered").
Proof.
  unfold device_config, os_parameters.
  repeat match goal with
  | |- context [if String.eqb os ?x then _ else _] => destruct (String.eqb os x)
  end; repeat split.
Qed.

(** X7. Every host entry of a tree built from a list of IPv4 addresses
    belongs to an address of the list: its key is the canonical hostname of
    that address, it lies in the leaf group the classifier gives that
    address, its value is the record derived from that address, and the
    record's [ansible_host] is the text of the address with the fixed role
    and site. No entry comes from anywhere else. *)
Theorem entries_come_from_input (l : list IPv4Address) (fmt : output_format) g h r :
  In g leaf_groups ->
  forall inventory,
    generate_inventory l fmt = Ok inventory ->
    Dict.get h (leaf_hosts inventory g) = Some r ->
    exists a config,
      In a l /\ h = hostname a /\ g = group_of a /\ r = PDict config /\
      Dict.get "ansible_host" config = Some (PStr (py_str a)) /\
      Dict.get "device_role" config = Some (PStr "auto_discovered") /\
      Dict.get "site" config = Some (PStr "discovered").
Proof.
  intros Hg inventory Hgen Hget.
  rewrite generate_inventory_ipv4 in Hgen. injection Hgen as <-.
  rewrite leaf_hosts_inventory_of in Hget by assumption.
  apply placed_get in Hget as [Hget|(a & Ha & Hga & Hha & Hra)]; [discriminate|].
  exists a, (device_config a (snd (bin_of_octet (octet 0 a)))).
  split; [exact Ha|]. split; [now symmetry|]. split; [now symmetry|].
  split; [now symmetry|]. apply ansible_host_kept.
Qed.

Lemma entries_come_from_input_witness :
  In "cisco_routers" leaf_groups /\
  exists a, In a [IPv4 3232235781] /\ "device-192-168-1-5" = hostname a.
Proof.
  assert (In "cisco_routers" leaf_groups) as Hg by (left; reflexivity).
  split; [exact Hg|].
  destruct (@entries_come_from_input [IPv4 3232235781] yaml "cisco_routers"
              "device-192-168-1-5" (record_of (IPv4 3232235781)) Hg
              (inventory_of (placed [IPv4 3232235781] no_hosts))
              (generate_inventory_ipv4 [IPv4 3232235781] yaml) eq_refl)
    as (a & config & Ha & Hh & _).
  exists a. split; [exact Ha|exact Hh].
Defined.

(** ** Order of the entries and repeated addresses *)

Definition in_group (g : string) (a : IPv4Address) : bool := String.eqb (group_of a) g.

Lemma keys_set_new {V} k (v : V) d :
  ~ In k (Dict.keys d) -> Dict.keys (Dict.set k v d) = (Dict.keys d ++ [k])%list.
Proof.
  intros Hk. rewrite DictFacts.keys_set.
  destruct (existsb (String.eqb k) (Dict.keys d)) eqn:E; [|reflexivity].
  apply existsb_exists in E as (x & Hx & Heq).
  apply String.eqb_eq in Heq. now subst x.
Qed.

Lemma placed_keys_order l leaf g :
  NoDup (map hostname l) ->
  (forall a, In a l -> ~ In (hostname a) (Dict.keys (leaf g))) ->
  Dict.keys (placed l leaf g) =
  (Dict.keys (leaf g) ++ map hostname (filter (in_group g) l))%list.
Proof.
  revert leaf. induction l as [|a l IH]; intros leaf Hnd Hfresh; cbn [placed].
  - cbn. now rewrite app_nil_r.
  - cbn [map] in Hnd. apply NoDup_cons_iff in Hnd as [Hnotin Hnd].
    rewrite IH; [|exact Hnd|].
    + unfold with_host at 1. cbn [filter]. unfold in_group at 2.
      rewrite (String.eqb_sym (group_of a) g).
      destruct (String.eqb g (group_of a)); [|reflexivity].
      rewrite keys_set_new by (apply Hfresh; now left).
      cbn [map]. now rewrite <- app_assoc.
    + intros b Hb Hin. unfold with_host in Hin.
      destruct (String.eqb g (group_of a)).
      * apply DictFacts.in_keys_set in Hin as [Heq|Hin].
        -- apply Hnotin. rewrite <- Heq. now apply in_map.
        -- apply (Hfresh b); [now right|exact Hin].
      * apply (Hfresh b); [now right|exact Hin].
Qed.

Lemma hostnames_NoDup l :
  Forall valid_ipv4 l -> NoDup l -> NoDup (map hostname l).
Proof.
  intros Hv Hnd. induction Hnd as [|a l Hnotin Hnd IH]; cbn [map]; [constructor|].
  apply Forall_cons_iff in Hv as [Ha Hv].
  constructor; [|now apply IH].
  intros Hin. apply in_map_iff in Hin as (b & Hhb & Hb).
  rewrite Forall_forall in Hv.
  apply hostname_inj in Hhb; [|now apply Hv|exact Ha]. now subst b.
Qed.

(** X8. The builder keeps the order of its input: in a tree built from
    pairwise distinct IPv4 addresses, the hostnames of each leaf group are
    those of the addresses classified into the group, in the order of the
    input list, so the tree holds as many entries as there are addresses. *)
Theorem leaf_entries_in_input_order (l : list IPv4Address) (fmt : output_format) :
  Forall valid_ipv4 l ->
  NoDup l ->
  exists inventory,
    generate_inventory l fmt = Ok inventory /\
    (forall g, In g leaf_groups ->
       Dict.keys (leaf_hosts inventory g) = map hostname (filter (in_group g) l)) /\
    Permutation (all_hostnames inventory) (map hostname l).
Proof.
  intros Hv Hnd. exists (inventory_of (placed l no_hosts)).
  split; [apply generate_inventory_ipv4|].
  assert (forall g, In g leaf_groups ->
            Dict.keys (leaf_hosts (inventory_of (placed l no_hosts)) g) =
            map hostname (filter (in_group g) l)) as Hkeys.
  { intros g Hg. rewrite leaf_hosts_inventory_of by assumption.
    rewrite placed_keys_order; [reflexivity|now apply hostnames_NoDup|].
    intros a _ []. }
  split; [exact Hkeys|].
  apply NoDup_Permutation.
  - now apply all_hostnames_NoDup.
  - now apply hostnames_NoDup.
  - intros h. rewrite all_hostnames_iff, in_map_iff.
    split; intros (a & H1 & H2); exists a; now split.
Qed.

Lemma leaf_entries_in_input_order_witness :
  Forall valid_ipv4 [IPv4 3232235801; IPv4 3232235781; IPv4 3232235802] /\
  NoDup [IPv4 3232235801; IPv4 3232235781; IPv4 3232235802] /\
  exists inventory,
    generate_inventory [IPv4 3232235801; IPv4 3232235781; IPv4 3232235802] yaml =
      Ok inventory /\
    Dict.keys (leaf_hosts inventory "cisco_switches") =
      map hostname (filter (in_group "cisco_switches")
                      [IPv4 3232235801; IPv4 3232235781; IPv4 3232235802]).
Proof.
  assert (Forall valid_ipv4 [IPv4 3232235801; IPv4 3232235781; IPv4 3232235802]) as Hv.
  { repeat constructor; unfold valid_ipv4; simpl; lia. }
  assert (NoDup [IPv4 3232235801; IPv4 3232235781; IPv4 3232235802]) as Hnd.
  { repeat constructor; simpl; intros H;
      repeat (destruct H as [H|H]; [discriminate H|]); exact H. }
  split; [exact Hv|]. split; [exact Hnd|].
  destruct (leaf_entries_in_input_order yaml Hv Hnd) as (inv & Hgen & Hkeys & _).
  exists inv. split; [exact Hgen|].
  apply Hkeys. right. left. reflexivity.
Defined.

Lemma set_same_value {V} k (v : V) d :
  Dict.get k d = Some v -> Dict.set k v d = d.
Proof.
  induction d as [|[k' v'] d IH]; cbn [Dict.get Dict.set]; [discriminate|].
  destruct (String.eqb k' k).
  - intros Heq. injection Heq as ->. reflexivity.
  - intros Hget. now rewrite IH.
Qed.

Lemma inventory_of_ext leaf leaf' :
  (forall g, In g leaf_groups -> leaf g = leaf' g) ->
  inventory_of leaf = inventory_of leaf'.
Proof.
  intros Hext. unfold inventory_of.
  rewrite (Hext "cisco_routers"), (Hext "cisco_switches"),
    (Hext "palo_alto_firewalls"), (Hext "fortinet_firewalls"),
    (Hext "juniper_routers"), (Hext "arista_switches"),
    (Hext "unknown_devices"); [reflexivity|..]; unfold leaf_groups; simpl; tauto.
Qed.

Lemma placed_app l1 l2 leaf : placed (l1 ++ l2) leaf = placed l2 (placed l1 leaf).
Proof.
  revert leaf. induction l1 as [|a l1 IH]; intros leaf; cbn [app placed];
    [reflexivity|apply IH].
Qed.

(** X9. Discovering an address again changes nothing: appending an address
    that the list already contains yields the same tree, entry for entry and
    in the same order. *)
Theorem repeated_address_changes_nothing (l : list IPv4Address) (a : IPv4Address)
  (fmt : output_format) :
  Forall valid_ipv4 l ->
  In a l ->
  generate_inventory (l ++ [a]) fmt = generate_inventory l fmt.
Proof.
  intros Hv Ha. rewrite !generate_inventory_ipv4. f_equal.
  rewrite placed_app. cbn [placed].
  apply inventory_of_ext. intros g Hg. unfold with_host.
  destruct (String.eqb_spec g (group_of a)) as [->|Hne]; [|reflexivity].
  apply set_same_value. now apply placed_record.
Qed.

Lemma repeated_address_changes_nothing_witness :
  Forall valid_ipv4 [IPv4 3232235781; IPv4 3232235801] /\
  In (IPv4 3232235781) [IPv4 3232235781; IPv4 3232235801] /\
  generate_inventory ([IPv4 3232235781; IPv4 3232235801] ++ [IPv4 3232235781]) json =
  generate_inventory [IPv4 3232235781; IPv4 3232235801] json.
Proof.
  assert (Forall valid_ipv4 [IPv4 3232235781; IPv4 3232235801]) as Hv.
  { repeat constructor; unfold valid_ipv4; simpl; lia. }
  assert (In (IPv4 3232235781) [IPv4 3232235781; IPv4 3232235801]) as Hin
    by (left; reflexivity).
  split; [exact Hv|]. split; [exact Hin|].
  exact (@repeated_address_changes_nothing _ _ json Hv Hin).
Defined.

(* ===================================================================== *)
(** * Further properties of the static document                           *)
(* ===================================================================== *)

(** The text after [p] when the string starts with [p]. *)
Fixpoint after_prefix (p s : string) : option string :=
  match p, s with
  | EmptyString, _ => Some s
  | String a p', String b s' => if Ascii.eqb a b then after_prefix p' s' else None
  | _, EmptyString => None
  end.

(** A key line without its indentation and its final colon. *)
Definition key_of (line : string) : string :=
  let k := drop_spaces line in
  String.substring 0 (String.length k - 1) k.

(** The host entries of a document: every line [ansible_host: x] together
    with the key line right above it. *)
Fixpoint host_entries (lines : list string) : list (string * string) :=
  match lines with
  | [] => []
  | name :: rest =>
      match rest with
      | addr :: _ =>
          match after_prefix "ansible_host: " (drop_spaces addr) with
          | Some x => (key_of name, x) :: host_entries rest
          | None => host_entries rest
          end
      | [] => []
      end
  end.

Definition document_hosts : list (string * string) :=
  host_entries CompleteInventory.inventory_lines.

Fixpoint distinct (l : list string) : bool :=
  match l with
  | [] => true
  | x :: rest => negb (existsb (String.eqb x) rest) && distinct rest
  end.

Lemma distinct_NoDup l : distinct l = true -> NoDup l.
Proof.
  induction l as [|x l IH]; cbn [distinct]; intros Hd; [constructor|].
  apply andb_true_iff in Hd as [Hx Hd]. apply negb_true_iff in Hx.
  constructor; [|now apply IH].
  intros Hin.
  assert (existsb (String.eqb x) l = true) as Hc
    by (apply existsb_exists; exists x; split; [exact Hin|apply String.eqb_refl]).
  congruence.
Qed.

Definition has_entry (name address : string) : bool :=
  existsb (fun e => String.eqb (fst e) name && String.eqb (snd e) address)
    document_hosts.

Lemma has_entry_In name address :
  has_entry name address = true -> In (name, address) document_hosts.
Proof.
  unfold has_entry. intros Hx. apply existsb_exists in Hx as ([n a] & Hin & Heq).
  apply andb_true_iff in Heq as [Hn Ha].
  apply String.eqb_eq in Hn, Ha. cbn in Hn, Ha. now subst.
Qed.

(** X10. The host names of the generated document are pairwise distinct;
    there are 661 host entries, one more than the 660 the header of the
    document announces. *)
Theorem document_host_names_distinct :
  NoDup (map fst document_hosts) /\
  List.length document_hosts = 661%nat /\
  In "# TOTAL: 660 network devices" CompleteInventory.inventory_lines.
Proof.
  split; [|split].
  - apply distinct_NoDup. vm_compute. reflexivity.
  - vm_compute. reflexivity.
  - unfold CompleteInventory.inventory_lines. apply in_or_app. left.
    unfold CompleteInventory.header. simpl. tauto.
Qed.

Definition shared_address (i : Z) : bool :=
  has_entry ("fw-internal-" ++ CompleteInventory.zero_padded 3 i)
            ("10.4.2." ++ PyText.str_int (i + 9)) &&
  has_entry ("fw-internal-" ++ CompleteInventory.zero_padded 3 (i + 10))
            ("10.4.2." ++ PyText.str_int (i + 9)).

Lemma shared_address_table : forallb shared_address (range 11 16) = true.
Proof. vm_compute. reflexivity. Qed.

(** X11. The addresses of the document are not distinct: the last octet of
    an internal Palo Alto firewall is [20 + (i - 1) % 10], so for every [i]
    from 11 to 15 the firewalls number [i] and [i + 10] carry the same
    [ansible_host]. *)
Theorem internal_firewalls_share_addresses (i : Z) :
  11 <= i <= 15 ->
  exists address,
    In ("fw-internal-" ++ CompleteInventory.zero_padded 3 i, address) document_hosts /\
    In ("fw-internal-" ++ CompleteInventory.zero_padded 3 (i + 10), address)
       document_hosts /\
    "fw-internal-" ++ CompleteInventory.zero_padded 3 i <>
    "fw-internal-" ++ CompleteInventory.zero_padded 3 (i + 10).
Proof.
  intros Hi.
  assert (In i (range 11 16)) as Hin by (apply TextFacts.in_range; lia).
  pose proof (proj1 (forallb_forall _ _) shared_address_table i Hin) as Hs.
  unfold shared_address in Hs. apply andb_true_iff in Hs as [H1 H2].
  exists ("10.4.2." ++ PyText.str_int (i + 9)).
  split; [now apply has_entry_In|]. split; [now apply has_entry_In|].
  assert (i = 11 \/ i = 12 \/ i = 13 \/ i = 14 \/ i = 15) as Hc by lia.
  destruct Hc as [->|[->|[->|[->| ->]]]]; discriminate.
Qed.

Lemma internal_firewalls_share_addresses_witness :
  11 <= 11 <= 15 /\
  exists address,
    In ("fw-internal-011", address) document_hosts /\
    In ("fw-internal-021", address) document_hosts.
Proof.
  assert (11 <= 11 <= 15) as Hi by lia. split; [exact Hi|].
  destruct (internal_firewalls_share_addresses Hi) as (address & H1 & H2 & _).
  exists address. split; [exact H1|exact H2].
Defined.

Definition access_switch_entry (i : Z) : bool :=
  has_entry ("sw-access-" ++ CompleteInventory.zero_padded 3 i)
            ("10.0.3." ++ PyText.str_int i).

Lemma access_switch_table : forallb access_switch_entry (range 1 271) = true.
Proof. vm_compute. reflexivity. Qed.

(** X12. The access switch number [i] gets the address [10.0.3.i] for every
    [i] from 1 to 270, so the switches 256 to 270 carry a last octet that no
    IPv4 address can have. *)
Theorem access_switch_addresses (i : Z) :
  1 <= i <= 270 ->
  In ("sw-access-" ++ CompleteInventory.zero_padded 3 i, "10.0.3." ++ PyText.str_int i)
     document_hosts /\
  (256 <= i -> forall a : IPv4Address, py_str a <> "10.0.3." ++ PyText.str_int i).
Proof.
  intros Hi. split.
  - apply has_entry_In.
    apply (proj1 (forallb_forall _ _) access_switch_table i).
    apply TextFacts.in_range. lia.
  - intros Hbig a Heq.
    apply (f_equal (fun s => PyText.int (PyText.last_item (PyText.split "." s)))) in Heq.
    rewrite last_octet_ipv4 in Heq.
    assert (PyText.int (PyText.last_item (PyText.split "." ("10.0.3." ++ PyText.str_int i)))
            = Some i) as Hlast.
    { assert (In i (range 256 271)) as Hin by (apply TextFacts.in_range; lia).
      revert i Hin Hi Hbig Heq.
      assert (forallb (fun i => match PyText.int (PyText.last_item
                  (PyText.split "." ("10.0.3." ++ PyText.str_int i))) with
                | Some v => v =? i | None => false end) (range 256 271) = true) as Ht
        by (vm_compute; reflexivity).
      intros i Hin _ _ _.
      pose proof (proj1 (forallb_forall _ _) Ht i Hin) as Hv. cbv beta in Hv.
      destruct (PyText.int _) as [v|]; [|discriminate].
      apply Z.eqb_eq in Hv. now subst. }
    rewrite Hlast in Heq. injection Heq as Heq.
    pose proof (octet_range 0 a). lia.
Qed.

Lemma access_switch_addresses_witness :
  1 <= 270 <= 270 /\
  In ("sw-access-270", "10.0.3.270") document_hosts.
Proof.
  assert (1 <= 270 <= 270) as Hi by lia. split; [exact Hi|].
  exact (proj1 (access_switch_addresses Hi)).
Defined.

(* ===================================================================== *)
(** * Properties of the large-scale inventory fragments                   *)
(* ===================================================================== *)

(** [p in s] for texts. *)
Fixpoint has_substring (p s : string) : bool :=
  match after_prefix p s with
  | Some _ => true
  | None =>
      match s with
      | EmptyString => false
      | String _ rest => has_substring p rest
      end
  end.

Definition fragment_hosts : list (string * string) :=
  host_entries (PyText.split (ascii_of_nat 10)
                  InventoryFragments.generate_complete_inventory).

(** X13. The credential placeholders that [generate_inventory.py] writes have
    single braces: its templates are f-strings, in which a doubled brace
    stands for one brace, so the output contains [{ vault_cisco_username }]
    and no doubled opening brace at all, whereas the document of
    [generate_complete_inventory.py] contains [{{ vault_cisco_username }}]. *)
Theorem fragment_placeholders_have_single_braces :
  has_substring "{{" InventoryFragments.generate_complete_inventory = false /\
  has_substring "{ vault_cisco_username }"
    InventoryFragments.generate_complete_inventory = true /\
  has_substring "{ vault_fortigate_api_token }"
    InventoryFragments.generate_complete_inventory = true /\
  has_substring "{{ vault_cisco_username }}"
    CompleteInventory.generate_complete_inventory = true.
Proof. repeat split; vm_compute; reflexivity. Qed.

(** X14. The fragment of [generate_inventory.py] has 621 host entries whose
    names are pairwise distinct and whose addresses are pairwise distinct. *)
Theorem fragment_hosts_distinct :
  List.length fragment_hosts = 621%nat /\
  NoDup (map fst fragment_hosts) /\
  NoDup (map snd fragment_hosts).
Proof.
  split; [vm_compute; reflexivity|].
  split; apply distinct_NoDup; vm_compute; reflexivity.
Qed.
